(** * seller-apis: stock and price synchronisation for two marketplaces

    A shallow embedding of [seller.py] (Ozon) and [market.py]
    (Yandex.Market): the Python values the remnants feed carries, the
    exceptions the code can raise, the offer-ID list as a mutable object in
    a store, and the functions [price_conversion], [divide], [create_stocks],
    [create_prices] and [get_offer_ids] of both modules. *)

From Stdlib Require Import ZArith Ascii String List Lia.
From stdpp Require Import base decidable option numbers list gmap strings pretty.

Local Open Scope string_scope.
Local Open Scope list_scope.
Local Open Scope Z_scope.

(** ** Python values, exceptions and results *)

(** The exceptions that the modelled code paths raise. *)
Inductive exn : Type :=
  | ValueError
  | TypeError
  | AttributeError
  | IndexError
  | HTTPError.

Global Instance exn_eq_dec : EqDecision exn.
Proof. solve_decision. Defined.

(** The outcome of a call: a returned value or a raised exception. *)
Inductive result (A : Type) : Type :=
  | Ok (a : A)
  | Raise (e : exn).
Arguments Ok {A} a.
Arguments Raise {A} e.

Definition result_bind {A B} (r : result A) (k : A → result B) : result B :=
  match r with
  | Ok a => k a
  | Raise e => Raise e
  end.

(** The cell values a row of the remnants sheet holds: text, an integer, or
    [None] (which is also what [dict.get] gives for a missing key). *)
Inductive pyval : Type :=
  | PNone
  | PInt (n : Z)
  | PStr (s : string).

Global Instance pyval_eq_dec : EqDecision pyval.
Proof. solve_decision. Defined.

(** [str(v)]. *)
Definition py_str (v : pyval) : string :=
  match v with
  | PNone => "None"
  | PInt n => pretty n
  | PStr s => s
  end.

(** *** [int(s)] on text

    Base-10 [int] of a string: surrounding white space is dropped, one sign
    is allowed, then decimal digits, where single underscores may separate
    digits.  Everything else is a [ValueError].  (Only the ASCII digits and
    white space are covered.) *)

Definition is_digit (c : ascii) : bool :=
  ((48 <=? nat_of_ascii c) && (nat_of_ascii c <=? 57))%nat.

Definition digit_val (c : ascii) : Z := Z.of_nat (nat_of_ascii c) - 48.

Definition is_py_space (c : ascii) : bool :=
  let n := nat_of_ascii c in
  ((9 <=? n) && (n <=? 13) || (28 <=? n) && (n <=? 32))%nat.

Fixpoint lstrip (s : string) : string :=
  match s with
  | String c s' => if is_py_space c then lstrip s' else s
  | EmptyString => EmptyString
  end.

Definition strip (s : string) : string :=
  String.rev (lstrip (String.rev (lstrip s))).

Fixpoint parse_digits (acc : Z) (after_digit : bool) (s : string) : option Z :=
  match s with
  | EmptyString => if after_digit then Some acc else None
  | String c s' =>
      if is_digit c then parse_digits (10 * acc + digit_val c) true s'
      else if Ascii.eqb c "_"
           then (if after_digit then parse_digits acc false s' else None)
           else None
  end.

Definition parse_int (s : string) : option Z :=
  match strip s with
  | String "-" s' => Z.opp <$> parse_digits 0 false s'
  | String "+" s' => parse_digits 0 false s'
  | s' => parse_digits 0 false s'
  end.

(** [int(v)]. *)
Definition py_int (v : pyval) : result Z :=
  match v with
  | PNone => Raise TypeError
  | PInt n => Ok n
  | PStr s => match parse_int s with
              | Some n => Ok n
              | None => Raise ValueError
              end
  end.

(** A row of the sheet is a [dict] keyed by column name; [watch.get(k)]. *)
Abbreviation row := (gmap string pyval).

Definition dict_get (k : string) (d : row) : pyval := default PNone (d !! k).

(** ** Lists as Python has them *)

(** [x in l]. *)
Definition py_in (x : string) (l : list string) : bool := bool_decide (x ∈ l).

(** [l.remove(x)]: drops the first element equal to [x]; a [ValueError]
    when there is none. *)
Fixpoint list_remove (x : string) (l : list string) : option (list string) :=
  match l with
  | [] => None
  | y :: l' => if decide (x = y) then Some l'
               else (y ::.) <$> list_remove x l'
  end.




(** ** [price_conversion] (seller.py) *)

(** [s.split(sep)] for a one-character separator: the pieces between the
    occurrences of [sep], at least one piece. *)
Fixpoint py_split (sep : ascii) (s : string) : list string :=
  match s with
  | EmptyString => [EmptyString]
  | String c s' =>
      if Ascii.eqb c sep then EmptyString :: py_split sep s'
      else match py_split sep s' with
           | p :: ps => String c p :: ps
           | [] => [String c EmptyString]
           end
  end.

(** [re.sub("[^0-9]", "", s)]: every character outside the range
    [0-9] is replaced by nothing. *)
Fixpoint re_sub_non_digits (s : string) : string :=
  match s with
  | EmptyString => EmptyString
  | String c s' =>
      if is_digit c then String c (re_sub_non_digits s')
      else re_sub_non_digits s'
  end.

(** [re.sub("[^0-9]", "", price.split(".")[0])].  Only [str] has the
    method [split]: on the other values the attribute lookup raises. *)
Definition price_conversion (price : pyval) : result string :=
  match price with
  | PStr s =>
      match py_split "." s !! 0%nat with
      | Some p => Ok (re_sub_non_digits p)
      | None => Raise IndexError
      end
  | PInt _ | PNone => Raise AttributeError
  end.

(** *** The normaliser as the specification words it *)

(** The substring before the first full stop. *)
Fixpoint before_first_dot (s : string) : string :=
  match s with
  | EmptyString => EmptyString
  | String c s' =>
      if decide (c = "."%char) then EmptyString
      else String c (before_first_dot s')
  end.

Definition ascii_digits : list ascii :=
  ["0"; "1"; "2"; "3"; "4"; "5"; "6"; "7"; "8"; "9"]%char.

(** Deleting every character that is not one of the ten ASCII digits. *)
Fixpoint keep_ascii_digits (s : string) : string :=
  match s with
  | EmptyString => EmptyString
  | String c s' =>
      if bool_decide (c ∈ ascii_digits) then String c (keep_ascii_digits s')
      else keep_ascii_digits s'
  end.

Definition normalize_price_spec (s : string) : string :=
  keep_ascii_digits (before_first_dot s).

(** Every character of [s] satisfies [P]. *)
Fixpoint string_forall (P : ascii → Prop) (s : string) : Prop :=
  match s with
  | EmptyString => True
  | String c s' => P c ∧ string_forall P s'
  end.


(** ** [divide] (seller.py) *)

Fixpoint range_go (fuel : nat) (i stop step : Z) : list Z :=
  match fuel with
  | O => []
  | S fuel' =>
      if (0 <? step) && (i <? stop) || (step <? 0) && (stop <? i)
      then i :: range_go fuel' (i + step) stop step
      else []
  end.

(** [range(start, stop, step)]; a zero step is a [ValueError].  The number
    of elements never exceeds the distance from [start] to [stop]. *)
Definition py_range (start stop step : Z) : result (list Z) :=
  if step =? 0 then Raise ValueError
  else Ok (range_go (Z.to_nat (Z.abs (stop - start))) start stop step).

(** The position a slice bound denotes in a list of length [len]. *)
Definition slice_bound (len k : Z) : Z :=
  if k <? 0 then Z.max 0 (len + k) else Z.min k len.

(** [lst[i:j]]. *)
Definition py_slice {A} (lst : list A) (i j : Z) : list A :=
  let len := Z.of_nat (length lst) in
  let a := slice_bound len i in
  let b := slice_bound len j in
  take (Z.to_nat (b - a)) (drop (Z.to_nat a) lst).

(** [list(divide(lst, n))]: the chunks the generator yields, in order. *)
Definition divide {A} (lst : list A) (n : Z) : result (list (list A)) :=
  result_bind (py_range 0 (Z.of_nat (length lst)) n)
    (λ idxs, Ok ((λ i, py_slice lst i (i + n)) <$> idxs)).



(** ** The offer-ID list as a shared mutable object *)

(** [create_stocks] changes the list object its caller passes in, so lists
    of offer IDs live in a store and the functions take a reference. *)
Definition loc := positive.

Abbreviation store := (gmap positive (list string)).

(** A computation that may change the store and may raise.  An exception
    leaves the changes made so far in place. *)
Definition M (A : Type) : Type := store → result A * store.

Definition ret {A} (a : A) : M A := λ σ, (Ok a, σ).

Definition bind {A B} (m : M A) (k : A → M B) : M B :=
  λ σ, match m σ with
       | (Ok a, σ') => k a σ'
       | (Raise e, σ') => (Raise e, σ')
       end.

Definition lift {A} (r : result A) : M A := λ σ, (r, σ).

Declare Scope py_scope.
Delimit Scope py_scope with py.
Notation "x <- m ;; k" := (bind m (λ x, k))
  (at level 100, m at next level, right associativity) : py_scope.
Notation "m ;;; k" := (bind m (λ _, k))
  (at level 100, right associativity) : py_scope.
Local Open Scope py_scope.

(** The current contents of the list object at [l]. *)
Definition list_read (l : loc) : M (list string) := λ σ, (Ok (σ !!! l), σ).

(** [x in offer_ids]. *)
Definition list_in (x : string) (l : loc) : M bool :=
  λ σ, (Ok (py_in x (σ !!! l)), σ).

(** [offer_ids.remove(x)], in place. *)
Definition list_remove_at (x : string) (l : loc) : M unit :=
  λ σ, match list_remove x (σ !!! l) with
       | Some xs => (Ok tt, <[l := xs]> σ)
       | None => (Raise ValueError, σ)
       end.

(** [result]-level traversal, left to right, stopping at the first raise. *)
Fixpoint result_mapM {A B} (f : A → result B) (l : list A) : result (list B) :=
  match l with
  | [] => Ok []
  | a :: l' =>
      result_bind (f a) (λ b,
      result_bind (result_mapM f l') (λ bs, Ok (b :: bs)))
  end.

Definition result_map {A B} (f : A → B) (r : result A) : result B :=
  result_bind r (λ a, Ok (f a)).

(** ** The marketplace side of a catalogue fetch *)

(** What [requests] hands back for one page request: the status line and
    the value under the key ["result"] of the JSON body ([None] when the
    body has no such key). *)
Record response (P : Type) : Type := {
  status_code : Z;
  json_result : option P
}.
Arguments status_code {P} r.
Arguments json_result {P} r.

(** [response.raise_for_status()]: the client errors 4xx and the server
    errors 5xx raise [HTTPError]. *)
Definition raise_for_status {P} (r : response P) : result unit :=
  if (400 <=? status_code r) && (status_code r <? 600)
  then Raise HTTPError else Ok tt.

(** How a fetch over a given sequence of replies ends: it returns, it
    raises, or it asks for a page beyond the last reply of the sequence. *)
Inductive outcome (A : Type) : Type :=
  | Returned (a : A)
  | Raised (e : exn)
  | Starved.
Arguments Returned {A} a.
Arguments Raised {A} e.
Arguments Starved {A}.

(** ** Runs against the marketplace *)

(** What the transport raises when no response arrives. *)
Inductive transport_error : Type :=
  | ReadTimeout
  | ConnectionError.

(** An exception on its way to a caller: one of the above, or one the
    Python code itself raised. *)
Inductive failure : Type :=
  | Py (e : exn)
  | Transport (t : transport_error).

(** What comes back for one request: a response, or a transport error. *)
Inductive reply (P : Type) : Type :=
  | Got (r : response P)
  | Broken (t : transport_error).
Arguments Got {P} r.
Arguments Broken {P} t.

(** How a run over a given sequence of replies ends: with a value, with an
    exception, or waiting for a reply beyond the end of the sequence. *)
Inductive ending (A : Type) : Type :=
  | Done (a : A)
  | Failed (f : failure)
  | Waiting.
Arguments Done {A} a.
Arguments Failed {A} f.
Arguments Waiting {A}.

(** The marketplace as a run sees it: the replies still to come to the
    catalogue requests ([pages]) and to the update requests ([acks]), and
    the calls made so far, oldest first. *)
Record wire (P J C : Type) : Type := {
  pages : list (reply P);
  acks : list (reply J);
  calls : list C
}.
Arguments pages {P J C} w.
Arguments acks {P J C} w.
Arguments calls {P J C} w.

Definition N (W A : Type) : Type := W → ending A * W.

Definition n_ret {W A} (a : A) : N W A := λ w, (Done a, w).

Definition n_bind {W A B} (m : N W A) (k : A → N W B) : N W B :=
  λ w, match m w with
       | (Done a, w') => k a w'
       | (Failed f, w') => (Failed f, w')
       | (Waiting, w') => (Waiting, w')
       end.

Declare Scope net_scope.
Delimit Scope net_scope with net.
Notation "x <- m ;; k" := (n_bind m (λ x, k))
  (at level 100, m at next level, right associativity) : net_scope.
Notation "m ;;; k" := (n_bind m (λ _, k))
  (at level 100, right associativity) : net_scope.

(** A step that touches no reply: its value, or its exception. *)
Definition n_result {W A} (r : result A) : N W A :=
  λ w, (match r with Ok a => Done a | Raise e => Failed (Py e) end, w).

(** A step on a list object: the store computation [m] run in [σ]. *)
Definition n_store {W A} (m : M A) (σ : store) : N W (A * store) :=
  λ w, match m σ with
       | (Ok a, σ') => (Done (a, σ'), w)
       | (Raise e, _) => (Failed (Py e), w)
       end.

(** [for x in xs: body(x)]. *)
Fixpoint n_for {W A B} (xs : list A) (body : A → N W B) : N W unit :=
  match xs with
  | [] => n_ret tt
  | x :: xs' => n_bind (body x) (λ _, n_for xs' body)
  end.

(** [list(filter(p, l))] for a test [p] that may raise. *)
Fixpoint result_filter {A} (p : A → result bool) (l : list A) : result (list A) :=
  match l with
  | [] => Ok []
  | a :: l' =>
      result_bind (p a) (λ keep,
      result_bind (result_filter p l') (λ kept,
        Ok (if (keep : bool) then a :: kept else kept)))
  end.

(** The responses at the head of a sequence of replies. *)
Fixpoint got_prefix {P} (rs : list (reply P)) : list (response P) :=
  match rs with
  | Got r :: rs' => r :: got_prefix rs'
  | _ => []
  end.

(** A catalogue fetch [fetch] (a [get_offer_ids] with its credentials) on
    the wire.  Every page request is logged as [c]; a transport error in
    place of a page the fetch asks for is raised. *)
Definition n_fetch {P J C R}
    (fetch : list (response P) → outcome (list string) * list R) (c : C)
    : N (wire P J C) (list string) :=
  λ w,
    let '(o, sent) := fetch (got_prefix (pages w)) in
    let answered := length sent in
    let logged := calls w ++ replicate answered c in
    let rest := drop answered (pages w) in
    match o with
    | Returned offer_ids =>
        (Done offer_ids, {| pages := rest; acks := acks w; calls := logged |})
    | Raised e =>
        (Failed (Py e), {| pages := rest; acks := acks w; calls := logged |})
    | Starved =>
        match rest with
        | Broken t :: rest' =>
            (Failed (Transport t),
             {| pages := rest'; acks := acks w; calls := logged ++ [c] |})
        | _ => (Waiting, {| pages := rest; acks := acks w; calls := logged |})
        end
    end.

(** One update request [c]: [requests.post] or [requests.put], then
    [response.raise_for_status()] and [response.json()]. *)
Definition n_update {P J C} (c : C) : N (wire P J C) (option J) :=
  λ w,
    match acks w with
    | [] => (Waiting, w)
    | a :: rest =>
        let w' := {| pages := pages w; acks := rest; calls := calls w ++ [c] |} in
        match a with
        | Broken t => (Failed (Transport t), w')
        | Got response =>
            match raise_for_status response with
            | Raise e => (Failed (Py e), w')
            | Ok _ => (Done (json_result response), w')
            end
        end
    end.

(** What [main] prints when its [try] block raises. *)
Inductive notice : Type :=
  | TimeoutNotice                 (* "Превышено время ожидания..." *)
  | ConnectionNotice              (* error, "Ошибка соединения" *)
  | ErrorNotice (e : exn).        (* error, "ERROR_2" *)

(** The three [except] clauses of [main], in their order. *)
Definition report (f : failure) : notice :=
  match f with
  | Transport ReadTimeout => TimeoutNotice
  | Transport ConnectionError => ConnectionNotice
  | Py e => ErrorNotice e
  end.

(** [try: body] under those clauses: what was printed, if anything. *)
Definition n_try {W A} (body : N W A) : N W (option notice) :=
  λ w, match body w with
       | (Done _, w') => (Done None, w')
       | (Failed f, w') => (Done (Some (report f)), w')
       | (Waiting, w') => (Waiting, w')
       end.

(** What [download_stock] gives its caller: the rows of the sheet, or the
    exception it raised. *)
Inductive downloaded : Type :=
  | Rows (watch_remnants : list row)
  | DownloadFailed (f : failure).

Definition n_download {W} (d : downloaded) : N W (list row) :=
  λ w, (match d with
        | Rows watch_remnants => Done watch_remnants
        | DownloadFailed f => Failed f
        end, w).

(** ** seller.py: Ozon *)

Module Seller.

Record product : Type := { product_offer_id : string (* key "offer_id" *) }.

Record page : Type := {
  items : list product;
  total : Z;
  last_id : string
}.

(** Headers and payload of one page request. *)
Record request : Type := {
  req_client_id : string;
  req_api_key : string;
  req_last_id : string
}.

(** [get_product_list], on the reply the marketplace gives to its
    request. *)
Definition get_product_list (last_id client_id seller_token : string)
    (reply : response page) : result (option page) :=
  result_bind (raise_for_status reply) (λ _, Ok (json_result reply)).

(** The [while True] loop of [get_offer_ids].  [replies] are the replies
    of the marketplace to the successive page requests; [sent] logs the
    requests made. *)
Fixpoint get_offer_ids_loop (client_id seller_token : string)
    (replies : list (response page)) (last_id : string)
    (product_list : list product) (sent : list request)
    : outcome (list product) * list request :=
  match replies with
  | [] => (Starved, sent)
  | reply :: replies' =>
      let sent := sent ++ [{| req_client_id := client_id;
                              req_api_key := seller_token;
                              req_last_id := last_id |}] in
      match get_product_list last_id client_id seller_token reply with
      | Raise e => (Raised e, sent)
      | Ok None => (Raised AttributeError, sent)
      | Ok (Some some_prod) =>
          let product_list := product_list ++ items some_prod in
          if total some_prod =? Z.of_nat (length product_list)
          then (Returned product_list, sent)
          else get_offer_ids_loop client_id seller_token replies'
                 (Seller.last_id some_prod) product_list sent
      end
  end.

Definition get_offer_ids (client_id seller_token : string)
    (replies : list (response page)) : outcome (list string) * list request :=
  match get_offer_ids_loop client_id seller_token replies "" [] [] with
  | (Returned product_list, sent) =>
      (Returned (product_offer_id <$> product_list), sent)
  | (Raised e, sent) => (Raised e, sent)
  | (Starved, sent) => (Starved, sent)
  end.

Record stock_entry : Type := { offer_id : string; stock : Z }.

Record price_entry : Type := {
  auto_action_enabled : string;
  currency_code : string;
  price_offer_id : string;   (* key "offer_id" *)
  old_price : string;
  price : string
}.

(** The first loop of [create_stocks]: the rows whose code is on the
    list get an entry, and their code leaves the list. *)
Fixpoint create_stocks_loop (watch_remnants : list row) (offer_ids : loc)
    (stocks : list stock_entry) : M (list stock_entry) :=
  match watch_remnants with
  | [] => ret stocks
  | watch :: rest =>
      found <- list_in (py_str (dict_get "Код" watch)) offer_ids ;;
      if (found : bool) then
        let count := py_str (dict_get "Количество" watch) in
        stock <- lift (if decide (count = ">10") then Ok 100
                       else if decide (count = "1") then Ok 0
                       else py_int (dict_get "Количество" watch)) ;;
        let stocks :=
          stocks ++ [{| offer_id := py_str (dict_get "Код" watch);
                        stock := stock |}] in
        list_remove_at (py_str (dict_get "Код" watch)) offer_ids ;;;
        create_stocks_loop rest offer_ids stocks
      else create_stocks_loop rest offer_ids stocks
  end.

Definition create_stocks (watch_remnants : list row) (offer_ids : loc)
    : M (list stock_entry) :=
  stocks <- create_stocks_loop watch_remnants offer_ids [] ;;
  ids <- list_read offer_ids ;;
  ret (stocks ++ ((λ offer_id, {| offer_id := offer_id; stock := 0 |}) <$> ids)).

Fixpoint create_prices_loop (watch_remnants : list row) (offer_ids : loc)
    (prices : list price_entry) : M (list price_entry) :=
  match watch_remnants with
  | [] => ret prices
  | watch :: rest =>
      found <- list_in (py_str (dict_get "Код" watch)) offer_ids ;;
      if (found : bool) then
        converted <- lift (price_conversion (dict_get "Цена" watch)) ;;
        let price := {| auto_action_enabled := "UNKNOWN";
                        currency_code := "RUB";
                        price_offer_id := py_str (dict_get "Код" watch);
                        old_price := "0";
                        price := converted |} in
        create_prices_loop rest offer_ids (prices ++ [price])
      else create_prices_loop rest offer_ids prices
  end.

Definition create_prices (watch_remnants : list row) (offer_ids : loc)
    : M (list price_entry) :=
  create_prices_loop watch_remnants offer_ids [].

(** The two list-building steps of [main], in its order and on the one
    list object [offer_ids], with the batches [divide] cuts for the
    uploads.  The uploads themselves do not touch the list and are taken
    to succeed. *)
Definition main_payloads (watch_remnants : list row) (offer_ids : loc)
    : M (list (list stock_entry) * list (list price_entry)) :=
  stocks <- create_stocks watch_remnants offer_ids ;;
  stock_batches <- lift (divide stocks 100) ;;
  prices <- create_prices watch_remnants offer_ids ;;
  price_batches <- lift (divide prices 900) ;;
  ret (stock_batches, price_batches).

(** The calls seller.py makes, with the [Client-Id] they carry. *)
Inductive call : Type :=
  | ListCall (client_id : string)
  | StocksCall (client_id : string) (stocks : list stock_entry)
  | PricesCall (client_id : string) (prices : list price_entry).

Definition update_price {J} (prices : list price_entry)
    (client_id seller_token : string) : N (wire page J call) (option J) :=
  n_update (PricesCall client_id prices).

Definition update_stocks {J} (stocks : list stock_entry)
    (client_id seller_token : string) : N (wire page J call) (option J) :=
  n_update (StocksCall client_id stocks).

(** [upload_prices]; the list [get_offer_ids] returns is a new object,
    here at reference 1 of a store of its own. *)
Definition upload_prices {J} (watch_remnants : list row)
    (client_id seller_token : string)
    : N (wire page J call) (list price_entry) :=
  (offer_ids <- n_fetch (get_offer_ids client_id seller_token)
                  (ListCall client_id) ;;
   made <- n_store (create_prices watch_remnants 1%positive)
             {[ 1%positive := offer_ids ]} ;;
   let prices := fst made in
   batches <- n_result (divide prices 1000) ;;
   n_for batches (λ some_price, update_price some_price client_id seller_token) ;;;
   n_ret prices)%net.

Definition upload_stocks {J} (watch_remnants : list row)
    (client_id seller_token : string)
    : N (wire page J call) (list stock_entry * list stock_entry) :=
  (offer_ids <- n_fetch (get_offer_ids client_id seller_token)
                  (ListCall client_id) ;;
   made <- n_store (create_stocks watch_remnants 1%positive)
             {[ 1%positive := offer_ids ]} ;;
   let stocks := fst made in
   batches <- n_result (divide stocks 100) ;;
   n_for batches (λ some_stock, update_stocks some_stock client_id seller_token) ;;;
   let not_empty := filter (λ stock, Seller.stock stock ≠ 0) stocks in
   n_ret (not_empty, stocks))%net.

(** [main], given the credentials it reads from the environment and what
    [download_stock] gives.  [create_stocks] and [create_prices] work on
    the one list object [offer_ids]. *)
Definition main {J} (seller_token client_id : string) (download : downloaded)
    : N (wire page J call) (option notice) :=
  n_try
    (offer_ids <- n_fetch (get_offer_ids client_id seller_token)
                    (ListCall client_id) ;;
     watch_remnants <- n_download download ;;
     made <- n_store (create_stocks watch_remnants 1%positive)
               {[ 1%positive := offer_ids ]} ;;
     let stocks := fst made in
     batches <- n_result (divide stocks 100) ;;
     n_for batches (λ some_stock, update_stocks some_stock client_id seller_token) ;;;
     made <- n_store (create_prices watch_remnants 1%positive) (snd made) ;;
     let prices := fst made in
     batches <- n_result (divide prices 900) ;;
     n_for batches (λ some_price, update_price some_price client_id seller_token))%net.

End Seller.

(** ** market.py: Yandex.Market *)

Module Market.

Record offer_info : Type := { shopSku : string }.

Record mapping_entry : Type := { offer : offer_info }.

Record paging_info : Type := { nextPageToken : option string }.

Record page : Type := {
  offerMappingEntries : list mapping_entry;
  paging : paging_info
}.

Record request : Type := {
  req_campaign_id : string;
  req_access_token : string;
  req_page_token : string
}.

Definition get_product_list (page_token campaign_id access_token : string)
    (reply : response page) : result (option page) :=
  result_bind (raise_for_status reply) (λ _, Ok (json_result reply)).

(** The [while True] loop of [get_offer_ids]; it stops at a page whose
    [nextPageToken] is absent or empty. *)
Fixpoint get_offer_ids_loop (campaign_id market_token : string)
    (replies : list (response page)) (page_token : string)
    (product_list : list mapping_entry) (sent : list request)
    : outcome (list mapping_entry) * list request :=
  match replies with
  | [] => (Starved, sent)
  | reply :: replies' =>
      let sent := sent ++ [{| req_campaign_id := campaign_id;
                              req_access_token := market_token;
                              req_page_token := page_token |}] in
      match get_product_list page_token campaign_id market_token reply with
      | Raise e => (Raised e, sent)
      | Ok None => (Raised AttributeError, sent)
      | Ok (Some some_prod) =>
          let product_list := product_list ++ offerMappingEntries some_prod in
          match nextPageToken (paging some_prod) with
          | None | Some EmptyString => (Returned product_list, sent)
          | Some next =>
              get_offer_ids_loop campaign_id market_token replies'
                next product_list sent
          end
      end
  end.

Definition get_offer_ids (campaign_id market_token : string)
    (replies : list (response page)) : outcome (list string) * list request :=
  match get_offer_ids_loop campaign_id market_token replies "" [] [] with
  | (Returned product_list, sent) =>
      (Returned ((λ product, shopSku (offer product)) <$> product_list), sent)
  | (Raised e, sent) => (Raised e, sent)
  | (Starved, sent) => (Starved, sent)
  end.

Record item : Type := { count : Z; type : string; updatedAt : string }.

Record sku_entry : Type := {
  sku : string;
  warehouseId : string;
  items : list item
}.

Record price_value : Type := { value : Z; currencyId : string }.

Record price_entry : Type := { id : string; price : price_value }.

(** The first loop of [create_stocks].  [date] is the stamp the function
    reads from the UTC clock, to the second, before the loop. *)
Fixpoint create_stocks_loop (date : string) (watch_remnants : list row)
    (offer_ids : loc) (warehouse_id : string) (stocks : list sku_entry)
    : M (list sku_entry) :=
  match watch_remnants with
  | [] => ret stocks
  | watch :: rest =>
      found <- list_in (py_str (dict_get "Код" watch)) offer_ids ;;
      if (found : bool) then
        let count := py_str (dict_get "Количество" watch) in
        stock <- lift (if decide (count = ">10") then Ok 100
                       else if decide (count = "1") then Ok 0
                       else py_int (dict_get "Количество" watch)) ;;
        let stocks :=
          stocks ++ [{| sku := py_str (dict_get "Код" watch);
                        warehouseId := warehouse_id;
                        items := [{| count := stock; type := "FIT";
                                     updatedAt := date |}] |}] in
        list_remove_at (py_str (dict_get "Код" watch)) offer_ids ;;;
        create_stocks_loop date rest offer_ids warehouse_id stocks
      else create_stocks_loop date rest offer_ids warehouse_id stocks
  end.

(** [create_stocks], run when the clock reads [utcnow]. *)
Definition create_stocks (utcnow : string) (watch_remnants : list row)
    (offer_ids : loc) (warehouse_id : string) : M (list sku_entry) :=
  let date := utcnow in
  stocks <- create_stocks_loop date watch_remnants offer_ids warehouse_id [] ;;
  ids <- list_read offer_ids ;;
  ret (stocks ++
       ((λ offer_id, {| sku := offer_id;
                        warehouseId := warehouse_id;
                        items := [{| count := 0; type := "FIT";
                                     updatedAt := date |}] |}) <$> ids)).

Fixpoint create_prices_loop (watch_remnants : list row) (offer_ids : loc)
    (prices : list price_entry) : M (list price_entry) :=
  match watch_remnants with
  | [] => ret prices
  | watch :: rest =>
      found <- list_in (py_str (dict_get "Код" watch)) offer_ids ;;
      if (found : bool) then
        amount <- lift (result_bind (price_conversion (dict_get "Цена" watch))
                          (λ digits, py_int (PStr digits))) ;;
        let price := {| id := py_str (dict_get "Код" watch);
                        price := {| value := amount; currencyId := "RUR" |} |} in
        create_prices_loop rest offer_ids (prices ++ [price])
      else create_prices_loop rest offer_ids prices
  end.

Definition create_prices (watch_remnants : list row) (offer_ids : loc)
    : M (list price_entry) :=
  create_prices_loop watch_remnants offer_ids [].

(** The calls market.py makes, with the campaign they address. *)
Inductive call : Type :=
  | ListCall (campaign_id : string)
  | StocksCall (campaign_id : string) (stocks : list sku_entry)
  | PricesCall (campaign_id : string) (prices : list price_entry).

Definition update_stocks {J} (stocks : list sku_entry)
    (campaign_id access_token : string) : N (wire page J call) (option J) :=
  n_update (StocksCall campaign_id stocks).

Definition update_price {J} (prices : list price_entry)
    (campaign_id access_token : string) : N (wire page J call) (option J) :=
  n_update (PricesCall campaign_id prices).

(** [upload_prices] is an [async def]: this is its body, which runs when
    the coroutine a call gives is awaited. *)
Definition upload_prices {J} (watch_remnants : list row)
    (campaign_id market_token : string)
    : N (wire page J call) (list price_entry) :=
  (offer_ids <- n_fetch (get_offer_ids campaign_id market_token)
                  (ListCall campaign_id) ;;
   made <- n_store (create_prices watch_remnants 1%positive)
             {[ 1%positive := offer_ids ]} ;;
   let prices := fst made in
   batches <- n_result (divide prices 500) ;;
   n_for batches (λ some_prices, update_price some_prices campaign_id market_token) ;;;
   n_ret prices)%net.

(** [upload_stocks] (an [async def] as well), awaited when the clock reads
    [utcnow]. *)
Definition upload_stocks {J} (utcnow : string) (watch_remnants : list row)
    (campaign_id market_token warehouse_id : string)
    : N (wire page J call) (list sku_entry * list sku_entry) :=
  (offer_ids <- n_fetch (get_offer_ids campaign_id market_token)
                  (ListCall campaign_id) ;;
   made <- n_store (create_stocks utcnow watch_remnants 1%positive warehouse_id)
             {[ 1%positive := offer_ids ]} ;;
   let stocks := fst made in
   batches <- n_result (divide stocks 2000) ;;
   n_for batches (λ some_stock, update_stocks some_stock campaign_id market_token) ;;;
   not_empty <- n_result
     (result_filter
        (λ stock, match items stock !! 0%nat with
                  | Some first => Ok (bool_decide (count first ≠ 0))
                  | None => Raise IndexError
                  end) stocks) ;;
   n_ret (not_empty, stocks))%net.

(** [main].  [download_stock] is called before the [try], so what it
    raises is not caught.  The two calls of [upload_prices] are not
    awaited: each makes a coroutine that is dropped, and its body never
    runs.  [utcnow_fbs] and [utcnow_dbs] are the clock at the two calls of
    [create_stocks]. *)
Definition main {J} (market_token campaign_fbs_id campaign_dbs_id
      warehouse_fbs_id warehouse_dbs_id : string)
    (utcnow_fbs utcnow_dbs : string) (download : downloaded)
    : N (wire page J call) (option notice) :=
  (watch_remnants <- n_download download ;;
   n_try
     (offer_ids <- n_fetch (get_offer_ids campaign_fbs_id market_token)
                     (ListCall campaign_fbs_id) ;;
      made <- n_store (create_stocks utcnow_fbs watch_remnants 1%positive
                         warehouse_fbs_id)
                {[ 1%positive := offer_ids ]} ;;
      let stocks := fst made in
      batches <- n_result (divide stocks 2000) ;;
      n_for batches
        (λ some_stock, update_stocks some_stock campaign_fbs_id market_token) ;;;
      let _coroutine :=
        upload_prices (J:=J) watch_remnants campaign_fbs_id market_token in
      offer_ids <- n_fetch (get_offer_ids campaign_dbs_id market_token)
                      (ListCall campaign_dbs_id) ;;
      made <- n_store (create_stocks utcnow_dbs watch_remnants 1%positive
                         warehouse_dbs_id)
                {[ 1%positive := offer_ids ]} ;;
      let stocks := fst made in
      batches <- n_result (divide stocks 2000) ;;
      n_for batches
        (λ some_stock, update_stocks some_stock campaign_dbs_id market_token) ;;;
      let _coroutine :=
        upload_prices (J:=J) watch_remnants campaign_dbs_id market_token in
      n_ret tt))%net.

End Market.

(** ** The loops read at the level of the list's contents *)

(** The code column of a row, as the loops compare it: [str(watch.get("Код"))]. *)
Definition code (watch : row) : string := py_str (dict_get "Код" watch).

(** The quantity-to-stock branch both [create_stocks] share. *)
Definition stock_of (watch : row) : result Z :=
  let count := py_str (dict_get "Количество" watch) in
  if decide (count = ">10") then Ok 100
  else if decide (count = "1") then Ok 0
  else py_int (dict_get "Количество" watch).

(** The first loop of [create_stocks] on the contents [ids] of the list
    object, for either payload shape [mk]: the entries appended to [acc]
    and the contents left. *)
Fixpoint scan {E} (mk : string → Z → E) (watch_remnants : list row)
    (ids : list string) (acc : list E) : result (list E) * list string :=
  match watch_remnants with
  | [] => (Ok acc, ids)
  | watch :: rest =>
      if py_in (code watch) ids then
        match stock_of watch with
        | Raise e => (Raise e, ids)
        | Ok n =>
            match list_remove (code watch) ids with
            | None => (Raise ValueError, ids)
            | Some ids' => scan mk rest ids' (acc ++ [mk (code watch) n])
            end
        end
      else scan mk rest ids acc
  end.

(** [create_stocks] on the contents of the list: the scan, then a zero
    entry for every offer ID left. *)
Definition reconcile {E} (mk : string → Z → E) (watch_remnants : list row)
    (ids : list string) : result (list E) * list string :=
  let '(r, xs) := scan mk watch_remnants ids [] in
  (result_map (λ stocks, stocks ++ ((λ offer_id, mk offer_id 0) <$> xs)) r, xs).

Definition seller_stock (c : string) (n : Z) : Seller.stock_entry :=
  {| Seller.offer_id := c; Seller.stock := n |}.

Definition market_stock (date warehouse_id c : string) (n : Z)
    : Market.sku_entry :=
  {| Market.sku := c;
     Market.warehouseId := warehouse_id;
     Market.items := [{| Market.count := n; Market.type := "FIT";
                         Market.updatedAt := date |}] |}.

(** The stock count of a Yandex entry: [entry["items"][0]["count"]]. *)
Definition market_count (e : Market.sku_entry) : option Z :=
  Market.count <$> head (Market.items e).


(** The price entry each module builds for a row. *)
Definition seller_price (watch : row) : result Seller.price_entry :=
  result_bind (price_conversion (dict_get "Цена" watch)) (λ converted,
    Ok {| Seller.auto_action_enabled := "UNKNOWN";
          Seller.currency_code := "RUB";
          Seller.price_offer_id := code watch;
          Seller.old_price := "0";
          Seller.price := converted |}).

Definition market_price (watch : row) : result Market.price_entry :=
  result_bind (price_conversion (dict_get "Цена" watch)) (λ digits,
  result_bind (py_int (PStr digits)) (λ amount,
    Ok {| Market.id := code watch;
          Market.price := {| Market.value := amount;
                             Market.currencyId := "RUR" |} |})).



(** *** The quantity rule as the specification words it *)



(** *** Sample rows *)

Definition watch (c q p : pyval) : row :=
  <["Код" := c]> (<["Количество" := q]> (<["Цена" := p]> ∅)).

Definition sample_rows : list row :=
  [ watch (PStr "123") (PStr ">10") (PStr "5'990.00 руб.");
    watch (PStr "456") (PStr "1") (PStr "7'500.50 руб.");
    watch (PStr "789") (PStr "7") (PStr "1'200.00 руб.") ].

Definition sample_ids : list string := ["123"; "456"; "789"; "999"].

Definition sample_store : store := {[ 1%positive := sample_ids ]}.


Definition sample_seller_stocks : list Seller.stock_entry :=
  [ seller_stock "123" 100; seller_stock "456" 0; seller_stock "789" 7;
    seller_stock "999" 0 ].

Definition sample_date : string := "2024-01-01T00:00:00Z".

Definition sample_market_stocks : list Market.sku_entry :=
  [ market_stock sample_date "w1" "123" 100;
    market_stock sample_date "w1" "456" 0;
    market_stock sample_date "w1" "789" 7;
    market_stock sample_date "w1" "999" 0 ].

Definition sample_seller_prices : list Seller.price_entry :=
  (λ '(c, p), {| Seller.auto_action_enabled := "UNKNOWN";
                 Seller.currency_code := "RUB";
                 Seller.price_offer_id := c;
                 Seller.old_price := "0";
                 Seller.price := p |})
  <$> [("123", "5990"); ("456", "7500"); ("789", "1200")].

Definition sample_market_prices : list Market.price_entry :=
  (λ '(c, p), {| Market.id := c;
                 Market.price := {| Market.value := p;
                                    Market.currencyId := "RUR" |} |})
  <$> [("123", 5990); ("456", 7500); ("789", 1200)].

(** A first page that announces two products and carries one, and a reply
    with a server error. *)
Definition sample_seller_page : response Seller.page :=
  {| status_code := 200;
     json_result := Some {| Seller.items := [{| Seller.product_offer_id := "123" |}];
                            Seller.total := 2;
                            Seller.last_id := "a1" |} |}.

Definition sample_market_page : response Market.page :=
  {| status_code := 200;
     json_result :=
       Some {| Market.offerMappingEntries :=
                 [{| Market.offer := {| Market.shopSku := "123" |} |}];
               Market.paging := {| Market.nextPageToken := Some "p2" |} |} |}.

Definition sample_seller_last_page : response Seller.page :=
  {| status_code := 200;
     json_result := Some {| Seller.items := [{| Seller.product_offer_id := "456" |}];
                            Seller.total := 2;
                            Seller.last_id := "a2" |} |}.

Definition sample_market_last_page : response Market.page :=
  {| status_code := 200;
     json_result :=
       Some {| Market.offerMappingEntries :=
                 [{| Market.offer := {| Market.shopSku := "456" |} |}];
               Market.paging := {| Market.nextPageToken := None |} |} |}.

Definition server_error {P} : response P :=
  {| status_code := 503; json_result := None |}.

(** *** Calls added by a run *)

(** Every call that the run [m] adds to the log of [w] satisfies [Q]. *)
Definition adds {P J C A} (Q : C → Prop) (m : N (wire P J C) A)
    (w : wire P J C) : Prop :=
  ∀ e w', m w = (e, w') → ∃ new, calls w' = calls w ++ new ∧ Forall Q new.

Global Instance result_eq_dec {A} `{EqDecision A} : EqDecision (result A).
Proof. solve_decision. Defined.

(** *** Sample runs *)

Definition ok_ack : reply unit :=
  Got {| status_code := 200; json_result := Some tt |}.

Definition error_ack : reply unit :=
  Got {| status_code := 500; json_result := None |}.

Definition sample_seller_wire : wire Seller.page unit Seller.call :=
  {| pages := [Got sample_seller_page; Got sample_seller_last_page];
     acks := [ok_ack; ok_ack];
     calls := [] |}.

Definition sample_market_wire : wire Market.page unit Market.call :=
  {| pages := [Got sample_market_page; Got sample_market_last_page;
               Got sample_market_page; Got sample_market_last_page];
     acks := [ok_ack; ok_ack];
     calls := [] |}.

(** Rows for the edge cases: a row without a price, a row whose price has
    no digit, rows of which the second has an unreadable quantity, and rows
    of goods the shop does not list. *)
Definition unpriced_rows : list row :=
  [ watch (PStr "123") (PStr "5") PNone ].

Definition blank_price_rows : list row :=
  [ watch (PStr "123") (PStr "5") (PStr "руб.") ].


Definition foreign_rows : list row :=
  [ watch (PStr "555") (PStr "много") PNone;
    watch (PStr "556") PNone PNone ].

Definition seller_request (cursor : string) : Seller.request :=
  {| Seller.req_client_id := "client";
     Seller.req_api_key := "token";
     Seller.req_last_id := cursor |}.

Definition market_request (cursor : string) : Market.request :=
  {| Market.req_campaign_id := "campaign";
     Market.req_access_token := "token";
     Market.req_page_token := cursor |}.

(** A reply that is no error and has no ["result"]. *)
Definition empty_body {P} : response P :=
  {| status_code := 200; json_result := None |}.

(** What the sample runs build from the two-offer catalogue of the sample
    pages. *)
Definition sample_run_stocks : list Seller.stock_entry :=
  [ seller_stock "123" 100; seller_stock "456" 0 ].

Definition sample_run_skus : list Market.sku_entry :=
  [ market_stock sample_date "w1" "123" 100;
    market_stock sample_date "w1" "456" 0 ].



Definition failing_market_wire : wire Market.page unit Market.call :=
  {| pages := [Got sample_market_page; Got server_error;
               Got sample_market_page; Got sample_market_last_page];
     acks := [ok_ack; ok_ack];
     calls := [] |}.
(** * Facts *)

(** ** The model on small inputs *)

Example py_str_int : py_str (PInt 17) = "17" ∧ py_str (PInt (-3)) = "-3".
Proof. split; reflexivity. Qed.

Example py_int_text :
  py_int (PStr " 1_000 ") = Ok 1000 ∧ py_int (PStr "7.0") = Raise ValueError
  ∧ py_int (PStr "-12") = Ok (-12) ∧ py_int (PStr "") = Raise ValueError.
Proof. repeat split; reflexivity. Qed.

Example row_get :
  dict_get "Код" (watch (PStr "123") (PStr "1") PNone) = PStr "123"
  ∧ dict_get "Артикул" (watch (PStr "123") (PStr "1") PNone) = PNone.
Proof. split; vm_compute; reflexivity. Qed.

Example divide_zero : divide [1; 2; 3] 0 = Raise ValueError.
Proof. reflexivity. Qed.

Example seller_create_stocks_sample :
  Seller.create_stocks sample_rows 1%positive sample_store
  = (Ok sample_seller_stocks, {[ 1%positive := ["999"] ]}).
Proof. vm_compute. reflexivity. Qed.

Example market_create_stocks_sample :
  fst (Market.create_stocks sample_date sample_rows 1%positive "w1" sample_store)
  = Ok sample_market_stocks.
Proof. vm_compute. reflexivity. Qed.

(** The docstring's call: 456 is not an offer of the shop and gets no
    entry. *)
Example seller_create_stocks_docstring :
  fst (Seller.create_stocks
         [watch (PStr "123") (PStr ">10") PNone; watch (PStr "456") (PStr "1") PNone]
         1%positive {[ 1%positive := ["123"; "789"] ]})
  = Ok [seller_stock "123" 100; seller_stock "789" 0].
Proof. vm_compute. reflexivity. Qed.

(** A list with a repeated offer ID loses one occurrence per matching
    row. *)
Example seller_create_stocks_repeated :
  Seller.create_stocks [watch (PStr "123") (PStr "5") PNone] 1%positive
    {[ 1%positive := ["123"; "123"] ]}
  = (Ok [seller_stock "123" 5; seller_stock "123" 0],
     {[ 1%positive := ["123"] ]}).
Proof. vm_compute. reflexivity. Qed.

(** An unreadable quantity of a matched row stops the call. *)
Example seller_create_stocks_unreadable :
  fst (Seller.create_stocks [watch (PStr "123") (PStr "много") PNone] 1%positive
         {[ 1%positive := ["123"] ]})
  = Raise ValueError.
Proof. vm_compute. reflexivity. Qed.

Example create_prices_sample :
  fst (Seller.create_prices sample_rows 1%positive sample_store)
  = Ok sample_seller_prices
  ∧ fst (Market.create_prices sample_rows 1%positive sample_store)
    = Ok sample_market_prices.
Proof. split; vm_compute; reflexivity. Qed.

(** [main] of seller.py on the sample: the stocks go out in one batch, and
    no price is left to send. *)
Example seller_main_sample :
  fst (Seller.main_payloads sample_rows 1%positive sample_store)
  = Ok ([sample_seller_stocks], []).
Proof. vm_compute. reflexivity. Qed.

Example get_offer_ids_two_pages :
  fst (Seller.get_offer_ids "client" "token"
         [sample_seller_page; sample_seller_last_page])
  = Returned ["123"; "456"]
  ∧ fst (Market.get_offer_ids "campaign" "token"
           [sample_market_page; sample_market_last_page])
    = Returned ["123"; "456"].
Proof. split; reflexivity. Qed.

(** ** [list.remove] *)


Lemma list_remove_perm x l l' : list_remove x l = Some l' → l ≡ₚ x :: l'.
Proof.
  revert l'. induction l as [|y l IH]; intros l'; simpl; [done|].
  destruct (decide (x = y)) as [->|Hne]; [by intros [= ->]|].
  destruct (list_remove x l) as [k|] eqn:Hk; [|done].
  intros [= <-]. rewrite (IH k eq_refl). apply Permutation_swap.
Qed.

Lemma list_remove_sublist x l l' : list_remove x l = Some l' → l' `sublist_of` l.
Proof.
  revert l'. induction l as [|y l IH]; intros l'; simpl; [done|].
  destruct (decide (x = y)) as [->|Hne].
  - intros [= ->]. by apply sublist_cons.
  - destruct (list_remove x l) as [k|] eqn:Hk; [|done].
    intros [= <-]. apply sublist_skip, IH. done.
Qed.

Lemma filter_ne_absent (x : string) (l : list string) : x ∉ l → filter (λ y, y ≠ x) l = l.
Proof.
  induction l as [|y l IH]; intros Hx; [done|].
  apply not_elem_of_cons in Hx as [Hne Hx].
  rewrite filter_cons_True by done. by rewrite IH.
Qed.

Lemma list_remove_NoDup x l l' :
  NoDup l → list_remove x l = Some l' → l' = filter (λ y, y ≠ x) l.
Proof.
  revert l'. induction l as [|y l IH]; intros l' Hnd; simpl; [done|].
  apply NoDup_cons in Hnd as [Hy Hnd].
  destruct (decide (x = y)) as [->|Hne].
  - intros [= ->]. rewrite filter_cons_False by (intros H; by apply H).
    by rewrite filter_ne_absent.
  - destruct (list_remove x l) as [k|] eqn:Hk; [|done].
    intros [= <-]. rewrite filter_cons_True by done.
    f_equal. by apply IH.
Qed.

(** ** The store-level loops compute [scan] *)

(** One turn of the first loop of [create_stocks], the same in both
    modules: the membership test, the quantity branch, the removal. *)
Ltac loop_scan_step IH Hl w l σ ids :=
  unfold bind at 1, list_in; rewrite (lookup_total_correct _ _ _ Hl);
  fold (code w); destruct (py_in (code w) ids); [|by apply IH];
  unfold bind at 1, lift; fold (stock_of w);
  destruct (stock_of w) as [?|?]; [|by rewrite insert_id];
  unfold bind at 1, list_remove_at; rewrite (lookup_total_correct _ _ _ Hl);
  let ids' := fresh "ids'" in
  destruct (list_remove (code w) ids) as [ids'|]; [|by rewrite insert_id];
  rewrite (IH l (<[l:=ids']> σ) ids') by apply lookup_insert_eq;
  destruct (scan _ _ _ _) as [? ?]; by rewrite insert_insert_eq.

Lemma seller_loop_scan recs : ∀ l (σ : store) ids acc,
  σ !! l = Some ids →
  Seller.create_stocks_loop recs l acc σ
  = (let '(r, xs) := scan seller_stock recs ids acc in (r, <[l := xs]> σ)).
Proof.
  induction recs as [|w ws IH]; intros l σ ids acc Hl; simpl.
  - unfold ret. by rewrite insert_id.
  - loop_scan_step IH Hl w l σ ids.
Qed.

Lemma market_loop_scan date wh recs : ∀ l (σ : store) ids acc,
  σ !! l = Some ids →
  Market.create_stocks_loop date recs l wh acc σ
  = (let '(r, xs) := scan (market_stock date wh) recs ids acc in
     (r, <[l := xs]> σ)).
Proof.
  induction recs as [|w ws IH]; intros l σ ids acc Hl; simpl.
  - unfold ret. by rewrite insert_id.
  - loop_scan_step IH Hl w l σ ids.
Qed.

(** ** What [scan] computes *)

Lemma filter_ext_elem {A} (P Q : A → Prop) `{∀ x, Decision (P x)}
    `{∀ x, Decision (Q x)} (l : list A) :
  (∀ x, x ∈ l → P x ↔ Q x) → filter P l = filter Q l.
Proof.
  induction l as [|x l IH]; intros HPQ; [done|].
  rewrite !filter_cons. rewrite IH by (intros y ?; apply HPQ; by right).
  destruct (decide (P x)) as [HP|HP], (decide (Q x)) as [HQ|HQ]; try done.
  - destruct HQ. apply HPQ; [by left|done].
  - destruct HP. apply HPQ; [by left|done].
Qed.

Lemma filter_all {A} (P : A → Prop) `{∀ x, Decision (P x)} (l : list A) :
  (∀ x, x ∈ l → P x) → filter P l = l.
Proof.
  induction l as [|x l IH]; intros HP; [done|].
  rewrite filter_cons_True by (apply HP; by left).
  rewrite IH; [done|]. intros y ?. apply HP. by right.
Qed.

Lemma scan_ok {E} (mk : string → Z → E) recs : ∀ ids acc out f,
  scan mk recs ids acc = (Ok out, f) →
  ∃ ws es, out = acc ++ es
    ∧ ws `sublist_of` recs
    ∧ Forall2 (λ w e, ∃ n, stock_of w = Ok n ∧ e = mk (code w) n) ws es
    ∧ f `sublist_of` ids
    ∧ ids ≡ₚ (code <$> ws) ++ f
    ∧ (∀ w, w ∈ recs → code w ∈ ids → code w ∈ code <$> ws).
Proof.
  induction recs as [|w rest IH]; intros ids acc out f; simpl.
  - intros [= <- <-]. exists [], []. rewrite app_nil_r.
    repeat split; try done. intros w Hw. by apply not_elem_of_nil in Hw.
  - unfold py_in. case_bool_decide as Hin.
    + destruct (stock_of w) as [n|e] eqn:Hn; [|done].
      destruct (list_remove (code w) ids) as [ids'|] eqn:Hrm; [|done].
      intros Hscan. apply IH in Hscan
        as (ws & es & -> & Hsub & Hall & Hf & Hperm & Hcov).
      exists (w :: ws), (mk (code w) n :: es).
      pose proof (list_remove_perm _ _ _ Hrm) as Hp.
      repeat split.
      * by rewrite <- app_assoc.
      * by apply sublist_skip.
      * constructor; [by exists n|done].
      * etrans; [done|]. by eapply list_remove_sublist.
      * rewrite Hp. simpl. by rewrite Hperm.
      * intros w0 Hw0 Hid. rewrite fmap_cons.
        destruct (decide (code w0 = code w)) as [->|Hne]; [by left|].
        right. apply elem_of_cons in Hw0 as [->|Hw0]; [done|].
        apply Hcov; [done|]. rewrite Hp in Hid.
        by apply elem_of_cons in Hid as [?|?].
    + intros Hscan. apply IH in Hscan
        as (ws & es & -> & Hsub & Hall & Hf & Hperm & Hcov).
      exists ws, es. repeat split; try done.
      * by apply sublist_cons.
      * intros w0 Hw0 Hid. apply elem_of_cons in Hw0 as [->|Hw0]; [done|].
        by apply Hcov.
Qed.

Lemma scan_NoDup {E} (mk : string → Z → E) recs : ∀ ids acc out f,
  NoDup ids →
  scan mk recs ids acc = (Ok out, f) →
  f = filter (λ y, y ∉ code <$> recs) ids.
Proof.
  induction recs as [|w rest IH]; intros ids acc out f Hnd; simpl.
  - intros [= <- <-]. symmetry. apply filter_all.
    intros x _. apply not_elem_of_nil.
  - unfold py_in. case_bool_decide as Hin.
    + destruct (stock_of w) as [n|e] eqn:Hn; [|done].
      destruct (list_remove (code w) ids) as [ids'|] eqn:Hrm; [|done].
      assert (NoDup ids') as Hnd'
        by (apply (sublist_NoDup ids' ids);
            [done|by eapply list_remove_sublist]).
      intros Hscan. apply (IH _ _ _ _ Hnd') in Hscan.
      rewrite Hscan, (list_remove_NoDup _ _ _ Hnd Hrm), list_filter_filter.
      apply filter_ext_elem. intros x _. rewrite not_elem_of_cons. tauto.
    + intros Hscan. apply IH in Hscan; [|done]. rewrite Hscan.
      apply filter_ext_elem. intros x Hx. rewrite not_elem_of_cons.
      split; [|tauto]. intros ?; split; [|done]. by intros ->.
Qed.



(** ** The price loops *)

Lemma seller_prices_loop recs : ∀ l (σ : store) acc,
  Seller.create_prices_loop recs l acc σ
  = (result_map (acc ++.)
       (result_mapM seller_price (filter (λ w, code w ∈ σ !!! l) recs)), σ).
Proof.
  induction recs as [|w rest IH]; intros l σ acc; simpl.
  - unfold ret. by rewrite app_nil_r.
  - unfold bind at 1, list_in, py_in. fold (code w).
    destruct (decide (code w ∈ σ !!! l)) as [Hin|Hin];
      [rewrite bool_decide_true, filter_cons_True by done
      |rewrite bool_decide_false, filter_cons_False by done; by apply IH].
    simpl. unfold bind at 1, lift, seller_price.
    destruct (price_conversion _) as [p|e]; simpl; [|done].
    rewrite IH. fold (code w).
    destruct (result_mapM _ _) as [ps|e]; simpl; [|done].
    by rewrite <- app_assoc.
Qed.

Lemma market_prices_loop recs : ∀ l (σ : store) acc,
  Market.create_prices_loop recs l acc σ
  = (result_map (acc ++.)
       (result_mapM market_price (filter (λ w, code w ∈ σ !!! l) recs)), σ).
Proof.
  induction recs as [|w rest IH]; intros l σ acc; simpl.
  - unfold ret. by rewrite app_nil_r.
  - unfold bind at 1, list_in, py_in. fold (code w).
    destruct (decide (code w ∈ σ !!! l)) as [Hin|Hin];
      [rewrite bool_decide_true, filter_cons_True by done
      |rewrite bool_decide_false, filter_cons_False by done; by apply IH].
    simpl. unfold bind at 1, lift, market_price.
    destruct (price_conversion _) as [p|e]; simpl; [|done].
    destruct (match parse_int p with Some n => Ok n | None => Raise ValueError end)
      as [a|e]; simpl; [|done].
    rewrite IH. fold (code w).
    destruct (result_mapM _ _) as [ps|e]; simpl; [|done].
    by rewrite <- app_assoc.
Qed.

(** ** [create_stocks] is [reconcile] on the contents of the list *)

Lemma seller_create_stocks_reconcile recs l (σ : store) ids :
  σ !! l = Some ids →
  Seller.create_stocks recs l σ
  = (let '(r, xs) := reconcile seller_stock recs ids in (r, <[l := xs]> σ)).
Proof.
  intros Hl. unfold Seller.create_stocks, reconcile, bind.
  rewrite (seller_loop_scan _ _ _ _ _ Hl).
  destruct (scan _ _ _ _) as [[stocks|e] xs]; [|done].
  unfold list_read, ret. simpl. by rewrite lookup_total_insert_eq.
Qed.

Lemma market_create_stocks_reconcile now wh recs l (σ : store) ids :
  σ !! l = Some ids →
  Market.create_stocks now recs l wh σ
  = (let '(r, xs) := reconcile (market_stock now wh) recs ids in
     (r, <[l := xs]> σ)).
Proof.
  intros Hl. unfold Market.create_stocks, reconcile, bind.
  rewrite (market_loop_scan _ _ _ _ _ _ _ Hl).
  destruct (scan _ _ _ _) as [[stocks|e] xs]; [|done].
  unfold list_read, ret. simpl. by rewrite lookup_total_insert_eq.
Qed.

Lemma reconcile_ok {E} (mk : string → Z → E) recs ids out f :
  reconcile mk recs ids = (Ok out, f) →
  ∃ ws es, out = es ++ ((λ c, mk c 0) <$> f)
    ∧ ws `sublist_of` recs
    ∧ Forall2 (λ w e, ∃ n, stock_of w = Ok n ∧ e = mk (code w) n) ws es
    ∧ f `sublist_of` ids
    ∧ ids ≡ₚ (code <$> ws) ++ f
    ∧ (∀ w, w ∈ recs → code w ∈ ids → code w ∈ code <$> ws)
    ∧ (NoDup ids → f = filter (λ y, y ∉ code <$> recs) ids).
Proof.
  unfold reconcile. destruct (scan mk recs ids []) as [[stocks|e] xs] eqn:Hs;
    simpl; [|done].
  intros [= <- <-].
  destruct (scan_ok _ _ _ _ _ _ Hs) as (ws & es & -> & ? & ? & ? & ? & ?).
  exists ws, es. repeat split; try done.
  intros Hnd. by eapply scan_NoDup.
Qed.




Lemma Forall2_fmap_eq {A B C} (f : A → C) (g : B → C) (P : A → B → Prop) l k :
  (∀ a b, P a b → g b = f a) → Forall2 P l k → g <$> k = f <$> l.
Proof.
  intros HP. induction 1 as [|a b l k Hab _ IH]; [done|].
  rewrite !fmap_cons, IH. f_equal. by apply HP.
Qed.

Lemma result_mapM_Forall2 {A B} (f : A → result B) l out :
  result_mapM f l = Ok out → Forall2 (λ a b, f a = Ok b) l out.
Proof.
  revert out. induction l as [|a l IH]; intros out; simpl.
  - intros [= <-]. constructor.
  - destruct (f a) as [b|e] eqn:Hb; simpl; [|done].
    destruct (result_mapM f l) as [bs|e]; simpl; [|done].
    intros [= <-]. constructor; [done|]. by apply IH.
Qed.

Lemma seller_price_offer w p : seller_price w = Ok p → Seller.price_offer_id p = code w.
Proof.
  unfold seller_price. destruct (price_conversion _); simpl; [|done].
  by intros [= <-].
Qed.

Lemma market_price_offer w p : market_price w = Ok p → Market.id p = code w.
Proof.
  unfold market_price. destruct (price_conversion _); simpl; [|done].
  destruct (match parse_int _ with Some n => _ | None => _ end); simpl; [|done].
  by intros [= <-].
Qed.

(** ** [create_stocks] *)




Lemma filter_none {A} (P : A → Prop) `{∀ x, Decision (P x)} (l : list A) :
  (∀ x, x ∈ l → ¬ P x) → filter P l = [].
Proof.
  induction l as [|x l IH]; intros HP; [done|].
  rewrite filter_cons_False by (apply HP; by left).
  apply IH. intros y ?. apply HP. by right.
Qed.





(** ** [create_prices] *)

(** C7. [create_prices] leaves the list alone and emits, in both modules,
    one entry for each row whose code is on the offer-ID list, in the
    order of the rows, and none for an offer ID that is the code of no row.
    The amount of an entry is what [price_conversion] makes of the row's
    price (read as an integer in market.py); the call raises when a row on
    the list has a price from which no entry can be built. *)
Theorem create_prices_matched_rows recs l (σ : store) :
  Seller.create_prices recs l σ
  = (result_mapM seller_price (filter (λ w, code w ∈ σ !!! l) recs), σ)
  ∧ Market.create_prices recs l σ
    = (result_mapM market_price (filter (λ w, code w ∈ σ !!! l) recs), σ)
  ∧ (∀ out σ', Seller.create_prices recs l σ = (Ok out, σ') →
     σ' = σ
     ∧ Forall2 (λ w e, Seller.price_offer_id e = code w
                 ∧ price_conversion (dict_get "Цена" w) = Ok (Seller.price e))
         (filter (λ w, code w ∈ σ !!! l) recs) out
     ∧ (∀ y, y ∉ code <$> recs → y ∉ Seller.price_offer_id <$> out))
  ∧ (∀ out σ', Market.create_prices recs l σ = (Ok out, σ') →
     σ' = σ
     ∧ Forall2 (λ w e, Market.id e = code w
                 ∧ ∃ digits,
                     price_conversion (dict_get "Цена" w) = Ok digits
                     ∧ py_int (PStr digits) = Ok (Market.value (Market.price e)))
         (filter (λ w, code w ∈ σ !!! l) recs) out
     ∧ (∀ y, y ∉ code <$> recs → y ∉ Market.id <$> out)).
Proof.
  split; [|split; [|split]].
  - unfold Seller.create_prices. rewrite seller_prices_loop.
    by destruct (result_mapM _ _).
  - unfold Market.create_prices. rewrite market_prices_loop.
    by destruct (result_mapM _ _).
  - intros out σ'. unfold Seller.create_prices. rewrite seller_prices_loop.
    destruct (result_mapM _ _) as [ps|e] eqn:Hp; simpl; [|done].
    intros [= <- <-]. apply result_mapM_Forall2 in Hp.
    split; [done|]. split.
    + eapply Forall2_impl; [exact Hp|]. simpl. intros w e He.
      split; [by apply seller_price_offer|].
      unfold seller_price in He.
      destruct (price_conversion _) as [p|]; simpl in He; [|done].
      by injection He as <-.
    + intros y Hy Hin.
      rewrite (Forall2_fmap_eq code Seller.price_offer_id _ _ ps) with (2 := Hp)
        in Hin by (intros ???; by apply seller_price_offer).
      apply list_elem_of_fmap in Hin as (w & -> & Hw).
      apply list_elem_of_filter in Hw as [_ Hw].
      apply Hy. by apply list_elem_of_fmap_2.
  - intros out σ'. unfold Market.create_prices. rewrite market_prices_loop.
    destruct (result_mapM _ _) as [ps|e] eqn:Hp; simpl; [|done].
    intros [= <- <-]. apply result_mapM_Forall2 in Hp.
    split; [done|]. split.
    + eapply Forall2_impl; [exact Hp|]. simpl. intros w e He.
      split; [by apply market_price_offer|].
      unfold market_price in He.
      destruct (price_conversion _) as [p|]; simpl in He; [|done].
      exists p. split; [done|]. simpl.
      destruct (parse_int p); simpl in He; [|done].
      by injection He as <-.
    + intros y Hy Hin.
      rewrite (Forall2_fmap_eq code Market.id _ _ ps) with (2 := Hp)
        in Hin by (intros ???; by apply market_price_offer).
      apply list_elem_of_fmap in Hin as (w & -> & Hw).
      apply list_elem_of_filter in Hw as [_ Hw].
      apply Hy. by apply list_elem_of_fmap_2.
Qed.

(** ** [price_conversion] *)

Lemma py_split_dot_head s : py_split "." s !! 0%nat = Some (before_first_dot s).
Proof.
  induction s as [|c s IH]; simpl; [done|].
  destruct (decide (c = "."%char)) as [->|Hne]; [done|].
  rewrite (proj2 (Ascii.eqb_neq _ _) Hne).
  destruct (py_split "." s) as [|p ps]; [done|].
  simpl in *. by injection IH as ->.
Qed.

Lemma is_digit_ascii_digits c : is_digit c = bool_decide (c ∈ ascii_digits).
Proof. destruct c as [[] [] [] [] [] [] [] []]; vm_compute; reflexivity. Qed.

Lemma re_sub_keep_ascii_digits s : re_sub_non_digits s = keep_ascii_digits s.
Proof.
  induction s as [|c s IH]; simpl; [done|].
  rewrite is_digit_ascii_digits, IH. done.
Qed.

Lemma keep_ascii_digits_digits s :
  string_forall (λ c, c ∈ ascii_digits) (keep_ascii_digits s).
Proof.
  induction s as [|c s IH]; simpl; [done|].
  case_bool_decide; simpl; [split|]; done.
Qed.

Lemma keep_ascii_digits_none s :
  string_forall (λ c, c ∉ ascii_digits) s → keep_ascii_digits s = "".
Proof.
  induction s as [|c s IH]; simpl; [done|].
  intros [Hc Hs]. rewrite bool_decide_false by done. by apply IH.
Qed.

(** C3. On text [price_conversion] returns the part before the first full
    stop with every character that is not an ASCII digit deleted.  So the
    result holds digits only, and it is empty when that part has no digit. *)
Theorem price_conversion_normalizes s :
  price_conversion (PStr s) = Ok (normalize_price_spec s)
  ∧ string_forall (λ c, c ∈ ascii_digits) (normalize_price_spec s)
  ∧ (string_forall (λ c, c ∉ ascii_digits) (before_first_dot s) →
     price_conversion (PStr s) = Ok "")
  ∧ price_conversion (PStr "5'990.00 руб.") = Ok "5990"
  ∧ price_conversion (PStr "7'500.50 руб.") = Ok "7500".
Proof.
  assert (price_conversion (PStr s) = Ok (normalize_price_spec s)) as Hs.
  { unfold price_conversion, normalize_price_spec.
    by rewrite py_split_dot_head, re_sub_keep_ascii_digits. }
  split; [done|]. split; [apply keep_ascii_digits_digits|].
  split; [|split; reflexivity].
  intros Hnone. rewrite Hs. unfold normalize_price_spec.
  by rewrite keep_ascii_digits_none.
Qed.

(** C9 on the code.  A value that is not text has no [split]:
    [price_conversion] raises [AttributeError] on it, not [TypeError]. *)
Theorem price_conversion_non_text :
  (∀ n, price_conversion (PInt n) = Raise AttributeError)
  ∧ price_conversion PNone = Raise AttributeError
  ∧ price_conversion (PInt 5990) ≠ Raise TypeError.
Proof. repeat split; done. Qed.

(** ** [divide] *)

Section divide_facts.
Context {A : Type}.
Variable lst : list A.
Variable n : Z.
Hypothesis n_pos : 0 < n.

Let len : Z := Z.of_nat (length lst).
Let chunk (i : Z) : list A := py_slice lst i (i + n).

Lemma py_slice_chunk i :
  0 ≤ i → i < len →
  chunk i = take (Z.to_nat n) (drop (Z.to_nat i) lst).
Proof using n_pos.
  intros Hi Hlt. unfold chunk, py_slice, slice_bound. fold len.
  rewrite (proj2 (Z.ltb_ge i 0)) by lia.
  rewrite (proj2 (Z.ltb_ge (i + n) 0)) by lia.
  rewrite (Z.min_l i len) by lia.
  destruct (Z.le_gt_cases (i + n) len) as [Hle|Hgt].
  - rewrite Z.min_l by lia. do 2 f_equal. lia.
  - rewrite Z.min_r by lia.
    rewrite !take_ge; [done| |]; rewrite length_drop; unfold len in *; lia.
Qed.

Lemma chunk_length i :
  0 ≤ i → i < len →
  Z.of_nat (length (chunk i)) = Z.min n (len - i).
Proof using n_pos.
  intros Hi Hlt. rewrite py_slice_chunk by done.
  rewrite length_take, length_drop. unfold len in *. lia.
Qed.

Lemma range_go_stop fuel i : len ≤ i → range_go fuel i len n = [].
Proof using n_pos.
  intros Hi. destruct fuel as [|fuel]; simpl; [done|].
  rewrite (proj2 (Z.ltb_ge i len)) by lia.
  rewrite (proj2 (Z.ltb_ge n 0)) by lia.
  by rewrite andb_false_r.
Qed.

Lemma range_go_step fuel i :
  i < len →
  range_go (S fuel) i len n = i :: range_go fuel (i + n) len n.
Proof using n_pos.
  intros Hi. simpl.
  rewrite (proj2 (Z.ltb_lt 0 n)) by lia.
  by rewrite (proj2 (Z.ltb_lt i len)) by lia.
Qed.

Lemma chunks_from fuel : ∀ i,
  0 ≤ i → len - i ≤ Z.of_nat fuel →
  let cs := chunk <$> range_go fuel i len n in
  concat cs = drop (Z.to_nat i) lst
  ∧ Forall (λ c, 0 < Z.of_nat (length c) ≤ n) cs
  ∧ (∀ k c, cs !! k = Some c → (S k < length cs)%nat →
            Z.of_nat (length c) = n).
Proof using n_pos.
  induction fuel as [|fuel IH]; intros i Hi Hfuel.
  - simpl. split; [|split; [constructor|done]].
    rewrite drop_ge; [done|]. unfold len in *. lia.
  - destruct (Z.le_gt_cases len i) as [Hge|Hlt].
    { rewrite range_go_stop by done. simpl.
      split; [|split; [constructor|done]].
      rewrite drop_ge; [done|]. unfold len in *. lia. }
    rewrite range_go_step by done. rewrite fmap_cons.
    destruct (IH (i + n)) as (Hcat & Hall & Hfull); [lia|lia|].
    cbn zeta. split; [|split].
    + simpl. rewrite Hcat, py_slice_chunk by done.
      rewrite Z2Nat.inj_add by lia.
      rewrite <- drop_drop. apply take_drop.
    + constructor; [|done]. rewrite chunk_length by done. lia.
    + intros [|k] c; simpl.
      * intros [= <-] Hmore. rewrite chunk_length by done.
        destruct (Z.le_gt_cases len (i + n)) as [Hend|?]; [|lia].
        rewrite range_go_stop in Hmore by done. simpl in Hmore. lia.
      * intros Hc Hmore. apply (Hfull k c Hc). lia.
Qed.
End divide_facts.

(** C8. For a positive [n], [divide lst n] yields chunks that concatenate
    to [lst]: each is non-empty and at most [n] long, and each but the last
    is exactly [n] long.  On [[1,2,3,4,5]] and 2 they are [[1,2]], [[3,4]]
    and [[5]]. *)
Theorem divide_chunks {A} (lst : list A) (n : Z) :
  0 < n →
  ∃ chunks, divide lst n = Ok chunks
    ∧ concat chunks = lst
    ∧ Forall (λ c, 0 < Z.of_nat (length c) ≤ n) chunks
    ∧ (∀ k c, chunks !! k = Some c → (S k < length chunks)%nat →
              Z.of_nat (length c) = n)
    ∧ divide [1; 2; 3; 4; 5] 2 = Ok [[1; 2]; [3; 4]; [5]].
Proof.
  intros Hn. unfold divide at 1, py_range.
  rewrite (proj2 (Z.eqb_neq n 0)) by lia. simpl.
  eexists. split; [done|].
  destruct (chunks_from lst n Hn (Z.to_nat (Z.abs (Z.of_nat (length lst) - 0))) 0)
    as (Hcat & Hall & Hfull); [lia|lia|].
  repeat split; try done.
Qed.

(** ** [get_offer_ids] *)

Lemma raise_for_status_error {P} (r : response P) :
  400 ≤ status_code r < 600 → raise_for_status r = Raise HTTPError.
Proof.
  intros [Hlo Hhi]. unfold raise_for_status.
  rewrite (proj2 (Z.leb_le _ _) Hlo), (proj2 (Z.ltb_lt _ _) Hhi). done.
Qed.

Lemma seller_loop_starved client_id seller_token pre :
  ∀ last_id product_list sent sent',
  Seller.get_offer_ids_loop client_id seller_token pre last_id product_list sent
  = (Starved, sent') →
  length sent' = (length sent + length pre)%nat
  ∧ ∃ last_id' product_list', ∀ rest,
      Seller.get_offer_ids_loop client_id seller_token (pre ++ rest)
        last_id product_list sent
      = Seller.get_offer_ids_loop client_id seller_token rest
          last_id' product_list' sent'.
Proof.
  induction pre as [|reply pre IH]; intros last_id product_list sent sent'; simpl.
  - intros [= <-]. split; [lia|]. by exists last_id, product_list.
  - destruct (Seller.get_product_list _ _ _ reply) as [[some_prod|]|e]; try done.
    destruct (_ =? _); [done|].
    intros Hloop. apply IH in Hloop as (Hlen & last_id' & product_list' & Hrest).
    split; [rewrite Hlen, length_app; simpl; lia|].
    by exists last_id', product_list'.
Qed.

Lemma market_loop_starved campaign_id market_token pre :
  ∀ page_token product_list sent sent',
  Market.get_offer_ids_loop campaign_id market_token pre page_token
    product_list sent
  = (Starved, sent') →
  length sent' = (length sent + length pre)%nat
  ∧ ∃ page_token' product_list', ∀ rest,
      Market.get_offer_ids_loop campaign_id market_token (pre ++ rest)
        page_token product_list sent
      = Market.get_offer_ids_loop campaign_id market_token rest
          page_token' product_list' sent'.
Proof.
  induction pre as [|reply pre IH]; intros page_token product_list sent sent';
    simpl.
  - intros [= <-]. split; [lia|]. by exists page_token, product_list.
  - destruct (Market.get_product_list _ _ _ reply) as [[some_prod|]|e]; try done.
    destruct (Market.nextPageToken _) as [[|c next]|]; try done.
    intros Hloop. apply IH in Hloop as (Hlen & page_token' & product_list' & Hrest).
    split; [rewrite Hlen, length_app; simpl; lia|].
    by exists page_token', product_list'.
Qed.





(** ** The theorems at the sample rows *)





Lemma price_conversion_normalizes_witness :
  string_forall (λ c, c ∉ ascii_digits) (before_first_dot "руб. 100")
  ∧ price_conversion (PStr "руб. 100") = Ok "".
Proof.
  assert (string_forall (λ c, c ∉ ascii_digits) (before_first_dot "руб. 100"))
    as Hnone.
  { simpl. repeat split; apply (bool_decide_unpack _); vm_compute; exact I. }
  split; [exact Hnone|].
  exact (proj1 (proj2 (proj2 (price_conversion_normalizes "руб. 100"))) Hnone).
Defined.




Lemma create_prices_matched_rows_witness :
  (Forall2 (λ w e, Seller.price_offer_id e = code w
             ∧ price_conversion (dict_get "Цена" w) = Ok (Seller.price e))
     (filter (λ w, code w ∈ sample_store !!! 1%positive) sample_rows)
     sample_seller_prices
   ∧ (∀ y, y ∉ code <$> sample_rows →
           y ∉ Seller.price_offer_id <$> sample_seller_prices))
  ∧ (Forall2 (λ w e, Market.id e = code w
               ∧ ∃ digits,
                   price_conversion (dict_get "Цена" w) = Ok digits
                   ∧ py_int (PStr digits) = Ok (Market.value (Market.price e)))
       (filter (λ w, code w ∈ sample_store !!! 1%positive) sample_rows)
       sample_market_prices
     ∧ (∀ y, y ∉ code <$> sample_rows →
             y ∉ Market.id <$> sample_market_prices)).
Proof.
  destruct (create_prices_matched_rows sample_rows 1%positive sample_store)
    as (_ & _ & Hseller & Hmarket).
  split.
  - apply (Hseller sample_seller_prices sample_store). vm_compute. reflexivity.
  - apply (Hmarket sample_market_prices sample_store). vm_compute. reflexivity.
Defined.

Lemma divide_chunks_witness :
  0 < 2
  ∧ ∃ chunks, divide [1; 2; 3; 4; 5] 2 = Ok chunks
      ∧ concat chunks = [1; 2; 3; 4; 5]
      ∧ Forall (λ c, 0 < Z.of_nat (length c) ≤ 2) chunks
      ∧ (chunks !! 0%nat = Some [1; 2] → (1 < length chunks)%nat →
         Z.of_nat (length [1; 2]) = 2).
Proof.
  assert (0 < 2) as Hpos by lia.
  split; [exact Hpos|].
  destruct (divide_chunks [1; 2; 3; 4; 5] 2 Hpos)
    as (chunks & Hdiv & Hcat & Hall & Hfull & _).
  exists chunks.
  split; [exact Hdiv|]. split; [exact Hcat|]. split; [exact Hall|].
  exact (Hfull 0%nat [1; 2]).
Defined.


(** * Further facts *)

(** ** [price_conversion], continued *)

Lemma before_first_dot_app s t :
  before_first_dot (s +:+ "." +:+ t) = before_first_dot s.
Proof.
  induction s as [|c s IH]; simpl; [done|].
  destruct (decide (c = "."%char)); [done|]. by rewrite IH.
Qed.

(** X1. Whatever follows a full stop in a price has no effect on
    [price_conversion]. *)
Theorem price_conversion_ignores_fraction s t :
  price_conversion (PStr (s +:+ "." +:+ t)) = price_conversion (PStr s).
Proof.
  unfold price_conversion.
  by rewrite !py_split_dot_head, before_first_dot_app.
Qed.

Lemma keep_ascii_digits_fixed s :
  string_forall (λ c, c ∈ ascii_digits) s →
  before_first_dot s = s ∧ keep_ascii_digits s = s.
Proof.
  induction s as [|c s IH]; simpl; [done|].
  intros [Hc Hs]. destruct (IH Hs) as [-> ->].
  rewrite bool_decide_true by done.
  destruct (decide (c = "."%char)) as [->|]; [|done].
  apply (bool_decide_pack _) in Hc. vm_compute in Hc. done.
Qed.

(** X2. [price_conversion] leaves its own results as they are: a price
    already converted converts to itself. *)
Theorem price_conversion_idempotent s digits :
  price_conversion (PStr s) = Ok digits →
  price_conversion (PStr digits) = Ok digits.
Proof.
  unfold price_conversion. rewrite !py_split_dot_head.
  intros [= <-]. rewrite !re_sub_keep_ascii_digits.
  destruct (keep_ascii_digits_fixed (keep_ascii_digits (before_first_dot s)))
    as [-> ->]; [apply keep_ascii_digits_digits|done].
Qed.

(** *** [int] of a string of digits *)

Lemma digit_not_space c : is_digit c = true → is_py_space c = false.
Proof.
  unfold is_digit, is_py_space.
  rewrite andb_true_iff, !Nat.leb_le. intros [? ?].
  apply orb_false_iff. split; apply andb_false_iff.
  - right. apply Nat.leb_gt. lia.
  - right. apply Nat.leb_gt. lia.
Qed.

Lemma ascii_digits_is_digit c : c ∈ ascii_digits → is_digit c = true.
Proof.
  intros Hc. rewrite is_digit_ascii_digits. by apply bool_decide_eq_true.
Qed.

Lemma string_app_empty_r s : s +:+ "" = s.
Proof. induction s as [|c s IH]; simpl; [done|]. unfold String.app in *. simpl. by rewrite IH. Qed.

Lemma rev_app_rev_app s1 : ∀ s2 s3,
  String.rev_app (String.rev_app s1 s2) s3 = String.rev_app s2 (s1 +:+ s3).
Proof.
  induction s1 as [|c s1 IH]; intros s2 s3; simpl; [done|].
  by rewrite IH.
Qed.

Lemma string_rev_involutive s : String.rev (String.rev s) = s.
Proof.
  unfold String.rev. rewrite rev_app_rev_app. simpl. apply string_app_empty_r.
Qed.

Lemma rev_app_digits s1 : ∀ s2,
  string_forall (λ c, c ∈ ascii_digits) s1 →
  string_forall (λ c, c ∈ ascii_digits) s2 →
  string_forall (λ c, c ∈ ascii_digits) (String.rev_app s1 s2).
Proof.
  induction s1 as [|c s1 IH]; intros s2; simpl; [done|].
  intros [Hc H1] H2. apply IH; [done|]. by split.
Qed.

Lemma lstrip_digits s :
  string_forall (λ c, c ∈ ascii_digits) s → lstrip s = s.
Proof.
  destruct s as [|c s]; simpl; [done|]. intros [Hc _].
  by rewrite (digit_not_space c (ascii_digits_is_digit c Hc)).
Qed.

Lemma strip_digits s :
  string_forall (λ c, c ∈ ascii_digits) s → strip s = s.
Proof.
  intros Hs. unfold strip. rewrite (lstrip_digits s Hs).
  rewrite lstrip_digits; [apply string_rev_involutive|].
  by apply rev_app_digits.
Qed.

Lemma parse_digits_digits s : ∀ acc b,
  string_forall (λ c, c ∈ ascii_digits) s →
  0 ≤ acc → b = true ∨ s ≠ "" →
  ∃ n, parse_digits acc b s = Some n ∧ 0 ≤ n.
Proof.
  induction s as [|c s IH]; intros acc b; simpl.
  - intros _ Hacc [->|?]; [by eauto|done].
  - intros [Hc Hs] Hacc _.
    pose proof (ascii_digits_is_digit c Hc) as Hd. rewrite Hd.
    apply IH; [done| |by left].
    unfold is_digit in Hd. apply andb_true_iff in Hd as [Hlo _].
    apply Nat.leb_le in Hlo. unfold digit_val. lia.
Qed.

Lemma parse_int_digits s :
  string_forall (λ c, c ∈ ascii_digits) s →
  (s = "" → parse_int s = None)
  ∧ (s ≠ "" → ∃ n, parse_int s = Some n ∧ 0 ≤ n).
Proof.
  intros Hs. split; [by intros ->|]. intros Hne.
  unfold parse_int. rewrite (strip_digits s Hs).
  destruct (parse_digits_digits s 0 false Hs) as (n & Hn & Hpos);
    [done|by right|].
  exists n. split; [|done]. rewrite <- Hn.
  destruct s as [|c s]; [done|]. destruct Hs as [Hc _].
  apply (bool_decide_pack _) in Hc.
  destruct c as [[] [] [] [] [] [] [] []]; vm_compute in Hc; done.
Qed.

(** ** [create_prices], continued *)

Lemma result_mapM_all_Ok {A B} (f : A → result B) l :
  Forall (λ a, ∃ b, f a = Ok b) l →
  ∃ out, result_mapM f l = Ok out ∧ Forall2 (λ a b, f a = Ok b) l out.
Proof.
  induction 1 as [|a l [b Hb] _ (out & Hout & Hall)]; simpl.
  - exists []. by split; [|constructor].
  - rewrite Hb, Hout. simpl. exists (b :: out). split; [done|by constructor].
Qed.

Lemma result_mapM_first_raise {A B} (f : A → result B) e l :
  Forall (λ a, (∃ b, f a = Ok b) ∨ f a = Raise e) l →
  Exists (λ a, f a = Raise e) l →
  result_mapM f l = Raise e.
Proof.
  induction 1 as [|a l Ha _ IH]; intros Hex; [by apply Exists_nil in Hex|].
  simpl. destruct Ha as [[b Hb]| ->]; [|done].
  rewrite Hb. simpl. apply Exists_cons in Hex as [Hex|Hex]; [congruence|].
  by rewrite (IH Hex).
Qed.

Lemma seller_price_text w s :
  dict_get "Цена" w = PStr s →
  seller_price w = Ok {| Seller.auto_action_enabled := "UNKNOWN";
                         Seller.currency_code := "RUB";
                         Seller.price_offer_id := code w;
                         Seller.old_price := "0";
                         Seller.price := normalize_price_spec s |}.
Proof.
  intros Hs. unfold seller_price, price_conversion. rewrite Hs.
  by rewrite py_split_dot_head, re_sub_keep_ascii_digits.
Qed.

Lemma seller_price_not_text w :
  (∀ s, dict_get "Цена" w ≠ PStr s) → seller_price w = Raise AttributeError.
Proof.
  intros Hs. unfold seller_price, price_conversion.
  destruct (dict_get "Цена" w) as [|n|s]; [done|done|]. by destruct (Hs s).
Qed.

Lemma market_price_text w s :
  dict_get "Цена" w = PStr s →
  (normalize_price_spec s = "" → market_price w = Raise ValueError)
  ∧ (normalize_price_spec s ≠ "" →
     ∃ n, 0 ≤ n
       ∧ parse_int (normalize_price_spec s) = Some n
       ∧ market_price w
         = Ok {| Market.id := code w;
                 Market.price := {| Market.value := n;
                                    Market.currencyId := "RUR" |} |}).
Proof.
  intros Hs. unfold market_price, price_conversion. rewrite Hs.
  rewrite py_split_dot_head, re_sub_keep_ascii_digits.
  fold (normalize_price_spec s). simpl.
  destruct (parse_int_digits (normalize_price_spec s)) as [Hnone Hsome];
    [apply keep_ascii_digits_digits|].
  split.
  - intros Hempty. by rewrite (Hnone Hempty).
  - intros Hne. destruct (Hsome Hne) as (n & -> & Hpos). by exists n.
Qed.

(** X3. In seller.py [create_prices] raises exactly when a row on the
    offer-ID list has a price that is not text (a number, or no price
    cell), and then with [AttributeError]; what the rows off the list
    hold never matters. *)
Theorem seller_create_prices_raises recs l (σ : store) :
  (Forall (λ w, ∃ s, dict_get "Цена" w = PStr s)
     (filter (λ w, code w ∈ σ !!! l) recs) →
   ∃ out, Seller.create_prices recs l σ = (Ok out, σ))
  ∧ (Exists (λ w, ∀ s, dict_get "Цена" w ≠ PStr s)
       (filter (λ w, code w ∈ σ !!! l) recs) →
     Seller.create_prices recs l σ = (Raise AttributeError, σ)).
Proof.
  unfold Seller.create_prices. rewrite seller_prices_loop. split.
  - intros Hall.
    destruct (result_mapM_all_Ok seller_price
                (filter (λ w, code w ∈ σ !!! l) recs)) as (out & -> & _).
    + eapply Forall_impl; [exact Hall|]. intros w [s Hs].
      rewrite (seller_price_text w s Hs). by eexists.
    + by exists out.
  - intros Hex.
    rewrite (result_mapM_first_raise seller_price AttributeError); [done| |].
    + apply Forall_forall. intros w _.
      destruct (dict_get "Цена" w) as [|n|s] eqn:Hs.
      * right. apply seller_price_not_text. intros s. by rewrite Hs.
      * right. apply seller_price_not_text. intros s. by rewrite Hs.
      * left. rewrite (seller_price_text w s Hs). by eexists.
    + eapply Exists_impl; [exact Hex|]. apply seller_price_not_text.
Qed.

(** X4. With text prices on all rows of the offer-ID list, market.py's
    [create_prices] raises [ValueError] as soon as one such price has no
    digit before its first full stop (an empty cell, say), where
    seller.py's sends the empty price on.  When every such price has a
    digit (and no more digits than [int] takes, 4300), both return, entry
    for entry for the same offers, and the amount of market.py is the
    number that seller.py's digits spell; it is never negative. *)
Theorem market_create_prices_amounts recs l (σ : store) :
  Forall (λ w, ∃ s, dict_get "Цена" w = PStr s)
    (filter (λ w, code w ∈ σ !!! l) recs) →
  (Exists (λ w, ∀ s, dict_get "Цена" w = PStr s → normalize_price_spec s = "")
     (filter (λ w, code w ∈ σ !!! l) recs) →
   Market.create_prices recs l σ = (Raise ValueError, σ))
  ∧ (Forall (λ w, ∀ s, dict_get "Цена" w = PStr s →
                   normalize_price_spec s ≠ ""
                   ∧ Z.of_nat (String.length (normalize_price_spec s)) ≤ 4300)
       (filter (λ w, code w ∈ σ !!! l) recs) →
     ∃ out_market out_seller,
       Market.create_prices recs l σ = (Ok out_market, σ)
       ∧ Seller.create_prices recs l σ = (Ok out_seller, σ)
       ∧ Forall2 (λ m s, Market.id m = Seller.price_offer_id s
                   ∧ py_int (PStr (Seller.price s))
                     = Ok (Market.value (Market.price m))
                   ∧ 0 ≤ Market.value (Market.price m))
           out_market out_seller).
Proof.
  intros Htext. unfold Market.create_prices, Seller.create_prices.
  rewrite market_prices_loop, seller_prices_loop.
  set (listed := filter (λ w, code w ∈ σ !!! l) recs) in *. split.
  - intros Hex.
    rewrite (result_mapM_first_raise market_price ValueError); [done| |].
    + apply Forall_forall. intros w Hw.
      apply (proj1 (Forall_forall _ _) Htext) in Hw as [s Hs].
      destruct (market_price_text w s Hs) as [Hnone Hsome].
      destruct (decide (normalize_price_spec s = "")) as [He|Hne];
        [right; by apply Hnone|].
      left. destruct (Hsome Hne) as (n & _ & _ & ->). by eexists.
    + apply Exists_exists in Hex as (w & Hw & Hempty).
      apply Exists_exists. exists w. split; [done|].
      apply (proj1 (Forall_forall _ _) Htext) in Hw as [s Hs].
      apply (market_price_text w s Hs). by apply Hempty.
  - intros Hdigits. clearbody listed.
    induction listed as [|w ws IH]; simpl.
    + exists [], []. repeat split; constructor.
    + apply Forall_cons in Htext as [[s Hs] Htext].
      apply Forall_cons in Hdigits as [Hw Hdigits].
      destruct (Hw s Hs) as [Hne _].
      destruct (IH Htext Hdigits) as (om & os & Hm & Hse & Hall).
      destruct (proj2 (market_price_text w s Hs) Hne) as (n & Hpos & Hn & ->).
      rewrite (seller_price_text w s Hs). simpl.
      destruct (result_mapM market_price ws) as [pm|]; [|done].
      destruct (result_mapM seller_price ws) as [ps|]; [|done].
      simpl in *. injection Hm as <-. injection Hse as <-.
      eexists _, _. split; [done|]. split; [done|].
      constructor; [|done]. simpl. by rewrite Hn.
Qed.

(** ** [create_stocks], continued *)

Lemma scan_foreign {E} (mk : string → Z → E) recs ids acc :
  Forall (λ w, code w ∉ ids) recs → scan mk recs ids acc = (Ok acc, ids).
Proof.
  induction 1 as [|w recs Hw _ IH]; simpl; [done|].
  unfold py_in. by rewrite bool_decide_false.
Qed.

(** X5. Rows whose code is not on the offer-ID list count for nothing in
    [create_stocks]: when no row's code is on the list (an empty sheet, an
    empty catalogue, a sheet of other goods) the call returns a zero entry
    for every offer ID, leaves the list as it was, and does not raise,
    whatever the quantities of the rows. *)
Theorem create_stocks_foreign_rows recs l (σ : store) ids :
  σ !! l = Some ids →
  Forall (λ w, code w ∉ ids) recs →
  Seller.create_stocks recs l σ
  = (Ok ((λ c, seller_stock c 0) <$> ids), σ)
  ∧ ∀ now wh,
      Market.create_stocks now recs l wh σ
      = (Ok ((λ c, market_stock now wh c 0) <$> ids), σ).
Proof.
  intros Hl Hforeign. split; [|intros now wh].
  - rewrite (seller_create_stocks_reconcile _ _ _ _ Hl). unfold reconcile.
    rewrite scan_foreign by done. simpl. by rewrite insert_id.
  - rewrite (market_create_stocks_reconcile _ _ _ _ _ _ Hl). unfold reconcile.
    rewrite scan_foreign by done. simpl. by rewrite insert_id.
Qed.




(** ** [divide], continued *)

Lemma range_go_lookup {A} (lst : list A) n fuel :
  0 < n →
  ∀ i k, 0 ≤ i → Z.of_nat (length lst) - i ≤ Z.of_nat fuel →
  range_go fuel i (Z.of_nat (length lst)) n !! k
  = if decide (i + Z.of_nat k * n < Z.of_nat (length lst))
    then Some (i + Z.of_nat k * n) else None.
Proof.
  intros Hn. induction fuel as [|fuel IH]; intros i k Hi Hfuel.
  - simpl. case_decide; [nia|done].
  - destruct (Z.le_gt_cases (Z.of_nat (length lst)) i) as [Hge|Hlt].
    { rewrite range_go_stop by done. case_decide; [nia|done]. }
    rewrite range_go_step by done. destruct k as [|k]; simpl.
    + rewrite decide_True by lia. f_equal. lia.
    + rewrite IH by lia.
      repeat case_decide; try (f_equal; lia); lia.
Qed.

Lemma divide_lookup {A} (lst : list A) n :
  0 < n →
  ∃ chunks, divide lst n = Ok chunks
    ∧ ∀ k, chunks !! k
           = if decide (Z.of_nat k * n < Z.of_nat (length lst))
             then Some (take (Z.to_nat n) (drop (k * Z.to_nat n) lst))
             else None.
Proof.
  intros Hn. unfold divide, py_range.
  rewrite (proj2 (Z.eqb_neq n 0)) by lia. simpl.
  eexists. split; [done|]. intros k.
  rewrite list_lookup_fmap, (range_go_lookup lst n) by lia.
  rewrite Z.add_0_l.
  case_decide as Hk; [|done]. simpl.
  rewrite (py_slice_chunk lst n Hn) by lia.
  do 3 f_equal. lia.
Qed.

Lemma divide_count {A} (lst : list A) n chunks :
  0 < n → divide lst n = Ok chunks →
  Z.of_nat (length chunks) = (Z.of_nat (length lst) + n - 1) / n.
Proof.
  intros Hn Hdiv. destruct (divide_lookup lst n Hn) as (chunks' & Hdiv' & Hlook).
  rewrite Hdiv in Hdiv'. injection Hdiv' as <-.
  pose proof (Hlook (length chunks)) as Hend.
  rewrite lookup_ge_None_2 in Hend by lia.
  case_decide as Hlast; [done|]. clear Hend.
  apply Z.div_unique with
    (r := Z.of_nat (length lst) + n - 1 - n * Z.of_nat (length chunks)); [|lia].
  left. split; [|lia].
  destruct (length chunks) as [|m] eqn:Hlen; [lia|].
  pose proof (Hlook m) as Hm.
  destruct (lookup_lt_is_Some_2 chunks m) as [c Hc]; [lia|].
  rewrite Hc in Hm. case_decide as Hm'; [|done]. lia.
Qed.

(** X7. For a positive [n] the [k]-th batch of [divide lst n] is
    [lst[k*n : k*n + n]], and there are as many batches as [n] goes into
    the length of [lst], rounded up. *)
Theorem divide_batches {A} (lst : list A) (n : Z) :
  0 < n →
  ∃ chunks, divide lst n = Ok chunks
    ∧ (∀ k, Z.of_nat k * n < Z.of_nat (length lst) →
            chunks !! k = Some (take (Z.to_nat n) (drop (k * Z.to_nat n) lst)))
    ∧ Z.of_nat (length chunks) = (Z.of_nat (length lst) + n - 1) / n.
Proof.
  intros Hn. destruct (divide_lookup lst n Hn) as (chunks & Hdiv & Hlook).
  exists chunks. split; [done|]. split.
  - intros k Hk. by rewrite Hlook, decide_True.
  - by apply divide_count.
Qed.

(** X8. A batch size that is not positive: with 0 [divide] raises
    [ValueError] (the zero step of [range]) even on an empty list; with a
    negative size it yields no batch at all, so that the items of the list
    are left out without an error. *)
Theorem divide_non_positive {A} (lst : list A) (n : Z) :
  (n = 0 → divide lst n = Raise ValueError)
  ∧ (n < 0 → divide lst n = Ok []).
Proof.
  split.
  - by intros ->.
  - intros Hn. unfold divide, py_range.
    rewrite (proj2 (Z.eqb_neq n 0)) by lia. simpl.
    destruct (Z.to_nat _) as [|fuel]; simpl; [done|].
    rewrite (proj2 (Z.ltb_ge 0 n)) by lia.
    rewrite (proj2 (Z.ltb_ge (Z.of_nat (length lst)) 0)) by lia.
    by rewrite andb_false_r.
Qed.

(** X9. A list that is not longer than the batch size goes out as one
    batch, itself; an empty list gives no batch, so that nothing is
    sent. *)
Theorem divide_short {A} (lst : list A) (n : Z) :
  0 < n →
  Z.of_nat (length lst) ≤ n →
  divide lst n = Ok (if decide (lst = []) then [] else [lst]).
Proof.
  intros Hn Hshort. destruct (divide_lookup lst n Hn) as (chunks & -> & Hlook).
  f_equal. apply list_eq. intros k. rewrite Hlook.
  destruct (decide (lst = [])) as [->|Hne].
  - rewrite decide_False by (simpl; pose proof (Nat2Z.is_nonneg k); nia). done.
  - destruct k as [|k]; simpl.
    + rewrite decide_True by (destruct lst; [done|simpl; lia]).
      rewrite drop_0, take_ge by lia. done.
    + rewrite decide_False by (pose proof (Nat2Z.is_nonneg k); nia). done.
Qed.

(** ** [get_offer_ids], continued *)

Lemma raise_for_status_pass {P} (r : response P) :
  ¬ 400 ≤ status_code r < 600 → raise_for_status r = Ok tt.
Proof.
  intros Hok. unfold raise_for_status.
  destruct (400 <=? status_code r) eqn:Hlo; [|done].
  destruct (status_code r <? 600) eqn:Hhi; [|done].
  apply Z.leb_le in Hlo. apply Z.ltb_lt in Hhi. lia.
Qed.

Lemma seller_loop_pages client_id seller_token replies :
  ∀ last_id product_list sent out sent',
  Seller.get_offer_ids_loop client_id seller_token replies last_id
    product_list sent
  = (Returned out, sent') →
  ∃ pgs, pgs ≠ []
    ∧ json_result <$> take (length pgs) replies = Some <$> pgs
    ∧ out = product_list ++ concat (Seller.items <$> pgs)
    ∧ (∃ p, last pgs = Some p ∧ Seller.total p = Z.of_nat (length out))
    ∧ sent' = sent ++
        ((λ cursor, {| Seller.req_client_id := client_id;
                       Seller.req_api_key := seller_token;
                       Seller.req_last_id := cursor |})
         <$> take (length pgs) (last_id :: (Seller.last_id <$> pgs))).
Proof.
  induction replies as [|reply replies IH];
    intros last_id product_list sent out sent'; simpl; [done|].
  unfold Seller.get_product_list.
  destruct (raise_for_status reply) as [[]|e]; simpl; [|done].
  destruct (json_result reply) as [p|] eqn:Hp; [|done].
  destruct (_ =? _) eqn:Htotal.
  - intros [= <- <-]. apply Z.eqb_eq in Htotal.
    exists [p]. csimpl. rewrite ?take_0, Hp, app_nil_r.
    split; [done|]. split; [done|]. split; [done|]. split; [|done].
    by exists p.
  - intros Hloop.
    apply IH in Hloop as (pgs & Hne & Hjson & -> & (q & Hq & Htot) & ->).
    exists (p :: pgs). csimpl. rewrite Hp, Hjson, <- !app_assoc.
    split; [done|]. split; [done|]. split; [done|]. split; [|done].
    exists q. split; [|by rewrite <- app_assoc in Htot].
    destruct pgs; [done|]. done.
Qed.

Lemma market_loop_pages campaign_id market_token replies :
  ∀ page_token product_list sent out sent',
  Market.get_offer_ids_loop campaign_id market_token replies page_token
    product_list sent
  = (Returned out, sent') →
  ∃ pgs, pgs ≠ []
    ∧ json_result <$> take (length pgs) replies = Some <$> pgs
    ∧ out = product_list ++ concat (Market.offerMappingEntries <$> pgs)
    ∧ (∃ p, last pgs = Some p
         ∧ (Market.nextPageToken (Market.paging p) = None
            ∨ Market.nextPageToken (Market.paging p) = Some ""))
    ∧ sent' = sent ++
        ((λ cursor, {| Market.req_campaign_id := campaign_id;
                       Market.req_access_token := market_token;
                       Market.req_page_token := cursor |})
         <$> take (length pgs)
               (page_token
                :: ((λ p, default "" (Market.nextPageToken (Market.paging p)))
                    <$> pgs))).
Proof.
  induction replies as [|reply replies IH];
    intros page_token product_list sent out sent'; simpl; [done|].
  unfold Market.get_product_list.
  destruct (raise_for_status reply) as [[]|e]; simpl; [|done].
  destruct (json_result reply) as [p|] eqn:Hp; [|done].
  destruct (Market.nextPageToken (Market.paging p)) as [[|c next]|] eqn:Htok.
  - intros [= <- <-]. exists [p]. csimpl. rewrite ?take_0, Hp, app_nil_r.
    split; [done|]. split; [done|]. split; [done|]. split; [|done].
    exists p. split; [done|]. by right.
  - intros Hloop.
    apply IH in Hloop as (pgs & Hne & Hjson & -> & (q & Hq & Hend) & ->).
    exists (p :: pgs). csimpl. rewrite Hp, Hjson, Htok, <- !app_assoc.
    split; [done|]. split; [done|]. split; [done|]. split; [|done].
    exists q. split; [|done]. destruct pgs; [done|]. done.
  - intros [= <- <-]. exists [p]. csimpl. rewrite ?take_0, Hp, app_nil_r.
    split; [done|]. split; [done|]. split; [done|]. split; [|done].
    exists p. split; [done|]. by left.
Qed.

(** X10. When [get_offer_ids] of seller.py returns, it has asked for one
    page after the other, the first with an empty [last_id] and each next
    one with the [last_id] of the page before, always with the caller's
    credentials; what it returns are the offer IDs of all items of these
    pages, in their order, and their number is the [total] of the last
    page, the first at which the two were equal. *)
Theorem seller_get_offer_ids_returns client_id seller_token replies offer_ids sent :
  Seller.get_offer_ids client_id seller_token replies = (Returned offer_ids, sent) →
  ∃ pgs, length pgs = length sent
    ∧ pgs ≠ []
    ∧ json_result <$> take (length sent) replies = Some <$> pgs
    ∧ offer_ids = Seller.product_offer_id <$> concat (Seller.items <$> pgs)
    ∧ (∃ p, last pgs = Some p
         ∧ Seller.total p = Z.of_nat (length offer_ids))
    ∧ sent = (λ cursor, {| Seller.req_client_id := client_id;
                           Seller.req_api_key := seller_token;
                           Seller.req_last_id := cursor |})
             <$> take (length pgs) ("" :: (Seller.last_id <$> pgs)).
Proof.
  unfold Seller.get_offer_ids.
  destruct (Seller.get_offer_ids_loop _ _ replies _ _ _)
    as [[out| |] sent0] eqn:Hrun; try done.
  intros [= <- <-].
  apply seller_loop_pages in Hrun as (pgs & Hne & Hjson & -> & (p & Hp & Htot) & ->).
  simpl in *. exists pgs.
  assert (length (take (length pgs) ("" :: (Seller.last_id <$> pgs))) = length pgs)
    as Hlen by (rewrite length_take; simpl; rewrite length_fmap; lia).
  rewrite length_fmap, Hlen.
  split; [done|]. split; [done|]. split; [done|]. split; [done|].
  split; [|done]. exists p. split; [done|]. by rewrite length_fmap.
Qed.

(** X11. When [get_offer_ids] of market.py returns, it has asked for one
    page after the other, the first with an empty page token and each
    next one with the [nextPageToken] of the page before; it stopped at
    the first page whose token is absent or empty, and returns the
    [shopSku] of all entries of these pages, in their order. *)
Theorem market_get_offer_ids_returns campaign_id market_token replies offer_ids sent :
  Market.get_offer_ids campaign_id market_token replies = (Returned offer_ids, sent) →
  ∃ pgs, length pgs = length sent
    ∧ pgs ≠ []
    ∧ json_result <$> take (length sent) replies = Some <$> pgs
    ∧ offer_ids
      = (λ product, Market.shopSku (Market.offer product))
        <$> concat (Market.offerMappingEntries <$> pgs)
    ∧ (∃ p, last pgs = Some p
         ∧ (Market.nextPageToken (Market.paging p) = None
            ∨ Market.nextPageToken (Market.paging p) = Some ""))
    ∧ sent = (λ cursor, {| Market.req_campaign_id := campaign_id;
                           Market.req_access_token := market_token;
                           Market.req_page_token := cursor |})
             <$> take (length pgs)
                   ("" :: ((λ p, default "" (Market.nextPageToken (Market.paging p)))
                           <$> pgs)).
Proof.
  unfold Market.get_offer_ids.
  destruct (Market.get_offer_ids_loop _ _ replies _ _ _)
    as [[out| |] sent0] eqn:Hrun; try done.
  intros [= <- <-].
  apply market_loop_pages in Hrun as (pgs & Hne & Hjson & -> & Hlast & ->).
  simpl in *. exists pgs.
  assert (length (take (length pgs)
                    ("" :: ((λ p, default "" (Market.nextPageToken (Market.paging p)))
                            <$> pgs))) = length pgs)
    as Hlen by (rewrite length_take; simpl; rewrite length_fmap; lia).
  rewrite length_fmap, Hlen. done.
Qed.

(** X12. A reply without an error status whose body has no ["result"]
    makes [get_offer_ids] raise [AttributeError] in both modules: no list
    comes back and no further page is asked for. *)
Theorem get_offer_ids_no_result :
  (∀ client_id seller_token pre bad rest sent,
     ¬ 400 ≤ status_code bad < 600 → json_result bad = None →
     Seller.get_offer_ids client_id seller_token pre = (Starved, sent) →
     ∃ request,
       Seller.get_offer_ids client_id seller_token (pre ++ bad :: rest)
       = (Raised AttributeError, sent ++ [request]))
  ∧ (∀ campaign_id market_token pre bad rest sent,
     ¬ 400 ≤ status_code bad < 600 → json_result bad = None →
     Market.get_offer_ids campaign_id market_token pre = (Starved, sent) →
     ∃ request,
       Market.get_offer_ids campaign_id market_token (pre ++ bad :: rest)
       = (Raised AttributeError, sent ++ [request])).
Proof.
  split.
  - intros client_id seller_token pre bad rest sent Hok Hnone.
    unfold Seller.get_offer_ids.
    destruct (Seller.get_offer_ids_loop _ _ pre _ _ _) as [[ | |] sent0] eqn:Hpre;
      try done.
    intros [= <-].
    apply seller_loop_starved in Hpre as (_ & last_id' & product_list' & ->).
    simpl. unfold Seller.get_product_list.
    rewrite (raise_for_status_pass _ Hok), Hnone. simpl. by eexists.
  - intros campaign_id market_token pre bad rest sent Hok Hnone.
    unfold Market.get_offer_ids.
    destruct (Market.get_offer_ids_loop _ _ pre _ _ _) as [[ | |] sent0] eqn:Hpre;
      try done.
    intros [= <-].
    apply market_loop_starved in Hpre as (_ & page_token' & product_list' & ->).
    simpl. unfold Market.get_product_list.
    rewrite (raise_for_status_pass _ Hok), Hnone. simpl. by eexists.
Qed.

(** ** Runs against the marketplace *)

Lemma n_fetch_done {P J C R}
    (fetch : list (response P) → outcome (list string) * list R) (c : C)
    (w : wire P J C) offer_ids w' :
  n_fetch fetch c w = (Done offer_ids, w') →
  ∃ sent, fetch (got_prefix (pages w)) = (Returned offer_ids, sent)
    ∧ w' = {| pages := drop (length sent) (pages w);
              acks := acks w;
              calls := calls w ++ replicate (length sent) c |}.
Proof.
  unfold n_fetch. destruct (fetch _) as [[ids|e|] sent] eqn:Hf.
  - intros [= <- <-]. by exists sent.
  - done.
  - by destruct (drop _ _) as [|[r|t] rest].
Qed.

Lemma n_fetch_calls {P J C R}
    (fetch : list (response P) → outcome (list string) * list R) (c : C)
    (w : wire P J C) e w' :
  n_fetch fetch c w = (e, w') →
  ∃ k, calls w' = calls w ++ replicate k c ∧ acks w' = acks w.
Proof.
  unfold n_fetch. destruct (fetch _) as [[ids|e'|] sent] eqn:Hf.
  - intros [= <- <-]. by exists (length sent).
  - intros [= <- <-]. by exists (length sent).
  - destruct (drop _ _) as [|[r|t] rest]; intros [= <- <-]; simpl.
    + by exists (length sent).
    + by exists (length sent).
    + exists (S (length sent)). split; [|done].
      rewrite <- app_assoc. f_equal.
      change [c] with (replicate 1 c). rewrite <- replicate_add.
      f_equal. lia.
Qed.

(** The replies [good] all pass [raise_for_status]. *)
Lemma n_for_update_done {P J C B} (mk : B → C) batches :
  ∀ (w : wire P J C) w',
  n_for batches (λ b, n_update (mk b)) w = (Done tt, w') →
  w' = {| pages := pages w;
          acks := drop (length batches) (acks w);
          calls := calls w ++ (mk <$> batches) |}.
Proof.
  induction batches as [|b batches IH]; intros w w'; simpl.
  - unfold n_ret. intros [= <-]. destruct w. simpl. by rewrite app_nil_r.
  - unfold n_bind at 1, n_update.
    destruct (acks w) as [|[r|t] rest] eqn:Hacks; [done| |done].
    destruct (raise_for_status r) as [[]|e]; [|done].
    intros Hfor. apply IH in Hfor as ->. simpl. by rewrite <- app_assoc.
Qed.

Lemma n_for_update_calls {P J C B} (mk : B → C) batches :
  ∀ (w : wire P J C) e w',
  n_for batches (λ b, n_update (mk b)) w = (e, w') →
  ∃ m, (m ≤ length batches)%nat
    ∧ calls w' = calls w ++ (mk <$> take m batches)
    ∧ pages w' = pages w.
Proof.
  induction batches as [|b batches IH]; intros w e w'; simpl.
  - unfold n_ret. intros [= <- <-]. exists 0%nat. by rewrite app_nil_r.
  - unfold n_bind at 1, n_update.
    destruct (acks w) as [|[r|t] rest] eqn:Hacks.
    + intros [= <- <-]. exists 0%nat. rewrite app_nil_r. split; [lia|done].
    + destruct (raise_for_status r) as [[]|e'].
      * intros Hfor. apply IH in Hfor as (m & Hm & -> & ->).
        exists (S m). simpl. rewrite <- app_assoc. split; [lia|done].
      * intros [= <- <-]. exists 1%nat. csimpl. rewrite ?take_0.
        split; [lia|done].
    + intros [= <- <-]. exists 1%nat. csimpl. rewrite ?take_0.
      split; [lia|done].
Qed.

(** The loop over the batches when the [k]-th update is the first to be
    answered with an error status. *)
Lemma n_for_update_abort {P J C B} (mk : B → C) batches :
  ∀ (w : wire P J C) good bad rest,
  acks w = (Got <$> good) ++ Got bad :: rest →
  Forall (λ r, ¬ 400 ≤ status_code r < 600) good →
  400 ≤ status_code bad < 600 →
  (length good < length batches)%nat →
  n_for batches (λ b, n_update (mk b)) w
  = (Failed (Py HTTPError),
     {| pages := pages w;
        acks := rest;
        calls := calls w ++ (mk <$> take (S (length good)) batches) |}).
Proof.
  induction batches as [|b batches IH]; intros w good bad rest Hacks Hgood Hbad Hlen;
    simpl in Hlen; [lia|].
  simpl. unfold n_bind at 1, n_update. rewrite Hacks.
  destruct good as [|g good]; simpl.
  - rewrite (raise_for_status_error _ Hbad). by rewrite ?take_0.
  - apply Forall_cons in Hgood as [Hg Hgood].
    rewrite (raise_for_status_pass _ Hg).
    simpl in Hlen.
    rewrite (IH _ good bad rest) by (simpl; try done; lia).
    simpl. by rewrite <- app_assoc.
Qed.

Lemma divide_concat {A} (lst : list A) n chunks :
  0 < n → divide lst n = Ok chunks →
  concat chunks = lst ∧ Forall (λ c, 0 < Z.of_nat (length c) ≤ n) chunks.
Proof.
  intros Hn. unfold divide, py_range.
  rewrite (proj2 (Z.eqb_neq n 0)) by lia. simpl. intros [= <-].
  destruct (chunks_from lst n Hn (Z.to_nat (Z.abs (Z.of_nat (length lst) - 0))) 0)
    as (Hcat & Hall & _); [lia|lia|].
  by split.
Qed.

Lemma reconcile_length {E} (mk : string → Z → E) recs ids out f :
  reconcile mk recs ids = (Ok out, f) → length out = length ids.
Proof.
  intros Hr. apply reconcile_ok in Hr as (ws & es & -> & _ & Hall & _ & Hperm & _).
  rewrite Hperm, !length_app, !length_fmap.
  by rewrite (Forall2_length _ _ _ Hall).
Qed.

Lemma result_filter_Ok {A} (p : A → result bool) l out :
  result_filter p l = Ok out →
  Forall (λ a, ∃ b, p a = Ok b) l ∧ out = filter (λ a, p a = Ok true) l.
Proof.
  revert out. induction l as [|a l IH]; intros out; simpl.
  - intros [= <-]. by split.
  - destruct (p a) as [b|e] eqn:Hb; simpl; [|done].
    destruct (result_filter p l) as [kept|e]; simpl; [|done].
    intros [= <-]. destruct (IH kept eq_refl) as [Hall ->].
    split; [constructor; [by exists b|done]|].
    rewrite filter_cons, Hb. destruct b.
    + by rewrite decide_True.
    + by rewrite decide_False.
Qed.

(** X13. When [upload_stocks] returns, it has fetched the catalogue, built
    the stocks from it, one entry per offer ID, and sent all of them, each
    once and in order, in batches of at most 100 (seller.py) or 2000
    (market.py): as many update requests as the batch size goes into the
    size of the catalogue, rounded up.  The first part of its result holds
    the entries with a count other than 0. *)
Theorem upload_stocks_returns :
  (∀ J watch_remnants client_id seller_token
     (w : wire Seller.page J Seller.call) not_empty stocks w',
     Seller.upload_stocks watch_remnants client_id seller_token w
     = (Done (not_empty, stocks), w') →
     ∃ offer_ids sent σ' batches,
       Seller.get_offer_ids client_id seller_token (got_prefix (pages w))
       = (Returned offer_ids, sent)
       ∧ Seller.create_stocks watch_remnants 1%positive
           {[ 1%positive := offer_ids ]} = (Ok stocks, σ')
       ∧ divide stocks 100 = Ok batches
       ∧ calls w' = calls w ++ replicate (length sent) (Seller.ListCall client_id)
                    ++ (Seller.StocksCall client_id <$> batches)
       ∧ acks w' = drop (length batches) (acks w)
       ∧ concat batches = stocks
       ∧ Forall (λ b, 0 < Z.of_nat (length b) ≤ 100) batches
       ∧ length stocks = length offer_ids
       ∧ Z.of_nat (length batches) = (Z.of_nat (length offer_ids) + 99) / 100
       ∧ not_empty = filter (λ e, Seller.stock e ≠ 0) stocks)
  ∧ (∀ J utcnow watch_remnants campaign_id market_token warehouse_id
       (w : wire Market.page J Market.call) not_empty stocks w',
     Market.upload_stocks utcnow watch_remnants campaign_id market_token
       warehouse_id w
     = (Done (not_empty, stocks), w') →
     ∃ offer_ids sent σ' batches,
       Market.get_offer_ids campaign_id market_token (got_prefix (pages w))
       = (Returned offer_ids, sent)
       ∧ Market.create_stocks utcnow watch_remnants 1%positive warehouse_id
           {[ 1%positive := offer_ids ]} = (Ok stocks, σ')
       ∧ divide stocks 2000 = Ok batches
       ∧ calls w' = calls w ++ replicate (length sent) (Market.ListCall campaign_id)
                    ++ (Market.StocksCall campaign_id <$> batches)
       ∧ acks w' = drop (length batches) (acks w)
       ∧ concat batches = stocks
       ∧ Forall (λ b, 0 < Z.of_nat (length b) ≤ 2000) batches
       ∧ length stocks = length offer_ids
       ∧ Z.of_nat (length batches) = (Z.of_nat (length offer_ids) + 1999) / 2000
       ∧ not_empty = filter (λ e, market_count e ≠ Some 0) stocks).
Proof.
  split.
  - intros J rows client_id seller_token w not_empty stocks w'.
    unfold Seller.upload_stocks, n_bind at 1.
    destruct (n_fetch _ _ w) as [[ids|f|] w1] eqn:Hfetch; try done.
    apply n_fetch_done in Hfetch as (sent & Hfetch & ->).
    unfold n_bind at 1, n_store.
    destruct (Seller.create_stocks rows 1%positive _) as [[out|e] σ'] eqn:Hcs;
      [|done].
    simpl fst. unfold n_bind at 1, n_result.
    destruct (divide out 100) as [batches|e] eqn:Hdiv; [|done].
    unfold n_bind at 1, Seller.update_stocks.
    destruct (n_for batches _ _) as [[[]|f|] w2] eqn:Hfor; try done.
    apply (n_for_update_done (Seller.StocksCall client_id)) in Hfor as ->.
    unfold n_ret. intros [= <- <- <-]. simpl.
    exists ids, sent, σ', batches.
    destruct (divide_concat out 100 batches) as [Hcat Hall]; [lia|done|].
    assert (length out = length ids) as Hlen.
    { rewrite (seller_create_stocks_reconcile _ _ _ ids) in Hcs
        by apply lookup_singleton_eq.
      destruct (reconcile _ _ _) as [r f] eqn:Hr. injection Hcs as -> _.
      by eapply reconcile_length. }
    rewrite <- app_assoc. repeat split; try done.
    rewrite (divide_count out 100 batches) by (lia || done).
    rewrite Hlen. f_equal. lia.
  - intros J utcnow rows campaign_id market_token wh w not_empty stocks w'.
    unfold Market.upload_stocks, n_bind at 1.
    destruct (n_fetch _ _ w) as [[ids|f|] w1] eqn:Hfetch; try done.
    apply n_fetch_done in Hfetch as (sent & Hfetch & ->).
    unfold n_bind at 1, n_store.
    destruct (Market.create_stocks utcnow rows 1%positive wh _)
      as [[out|e] σ'] eqn:Hcs; [|done].
    simpl fst. unfold n_bind at 1, n_result.
    destruct (divide out 2000) as [batches|e] eqn:Hdiv; [|done].
    unfold n_bind at 1, Market.update_stocks.
    destruct (n_for batches _ _) as [[[]|f|] w2] eqn:Hfor; try done.
    apply (n_for_update_done (Market.StocksCall campaign_id)) in Hfor as ->.
    unfold n_bind, n_result.
    destruct (result_filter _ out) as [kept|e] eqn:Hkept; [|done].
    unfold n_ret. intros [= <- <- <-]. simpl.
    exists ids, sent, σ', batches.
    destruct (divide_concat out 2000 batches) as [Hcat Hall]; [lia|done|].
    assert (length out = length ids) as Hlen.
    { rewrite (market_create_stocks_reconcile _ _ _ _ _ ids) in Hcs
        by apply lookup_singleton_eq.
      destruct (reconcile _ _ _) as [r f] eqn:Hr. injection Hcs as -> _.
      by eapply reconcile_length. }
    rewrite <- app_assoc. repeat split; try done.
    + rewrite (divide_count out 2000 batches) by (lia || done).
      rewrite Hlen. f_equal. lia.
    + apply result_filter_Ok in Hkept as [Hitems ->].
      apply filter_ext_elem. intros e He.
      apply (proj1 (Forall_forall _ _) Hitems) in He as [b Hb].
      unfold market_count. rewrite head_lookup.
      destruct (Market.items e !! 0%nat) as [first|]; [|done]. simpl.
      split.
      * intros [= Hc]. apply bool_decide_eq_true in Hc. congruence.
      * intros Hc. f_equal. apply bool_decide_eq_true. congruence.
Qed.

Lemma n_fetch_returned {P J C R}
    (fetch : list (response P) → outcome (list string) * list R) (c : C)
    (w : wire P J C) offer_ids sent :
  fetch (got_prefix (pages w)) = (Returned offer_ids, sent) →
  n_fetch fetch c w
  = (Done offer_ids,
     {| pages := drop (length sent) (pages w);
        acks := acks w;
        calls := calls w ++ replicate (length sent) c |}).
Proof. intros Hf. unfold n_fetch. by rewrite Hf. Qed.

(** X14. When [upload_prices] returns, it has fetched the catalogue, built
    one price entry for each row whose code is in it, and sent all of
    them, each once and in order, in batches of at most 1000 (seller.py)
    or 500 (market.py); it returns these entries. *)
Theorem upload_prices_returns :
  (∀ J watch_remnants client_id seller_token
     (w : wire Seller.page J Seller.call) prices w',
     Seller.upload_prices watch_remnants client_id seller_token w
     = (Done prices, w') →
     ∃ offer_ids sent batches,
       Seller.get_offer_ids client_id seller_token (got_prefix (pages w))
       = (Returned offer_ids, sent)
       ∧ Forall2 (λ row e, Seller.price_offer_id e = code row)
           (filter (λ row, code row ∈ offer_ids) watch_remnants) prices
       ∧ divide prices 1000 = Ok batches
       ∧ calls w' = calls w ++ replicate (length sent) (Seller.ListCall client_id)
                    ++ (Seller.PricesCall client_id <$> batches)
       ∧ acks w' = drop (length batches) (acks w)
       ∧ concat batches = prices
       ∧ Forall (λ b, 0 < Z.of_nat (length b) ≤ 1000) batches)
  ∧ (∀ J watch_remnants campaign_id market_token
       (w : wire Market.page J Market.call) prices w',
     Market.upload_prices watch_remnants campaign_id market_token w
     = (Done prices, w') →
     ∃ offer_ids sent batches,
       Market.get_offer_ids campaign_id market_token (got_prefix (pages w))
       = (Returned offer_ids, sent)
       ∧ Forall2 (λ row e, Market.id e = code row)
           (filter (λ row, code row ∈ offer_ids) watch_remnants) prices
       ∧ divide prices 500 = Ok batches
       ∧ calls w' = calls w ++ replicate (length sent) (Market.ListCall campaign_id)
                    ++ (Market.PricesCall campaign_id <$> batches)
       ∧ acks w' = drop (length batches) (acks w)
       ∧ concat batches = prices
       ∧ Forall (λ b, 0 < Z.of_nat (length b) ≤ 500) batches).
Proof.
  split.
  - intros J rows client_id seller_token w prices w'.
    unfold Seller.upload_prices, n_bind at 1.
    destruct (n_fetch _ _ w) as [[ids|f|] w1] eqn:Hfetch; try done.
    apply n_fetch_done in Hfetch as (sent & Hfetch & ->).
    unfold n_bind at 1, n_store, Seller.create_prices.
    rewrite seller_prices_loop, lookup_total_singleton.
    destruct (result_mapM seller_price _) as [out|e] eqn:Hout; simpl; [|done].
    unfold n_bind at 1, n_result.
    destruct (divide out 1000) as [batches|e] eqn:Hdiv; [|done].
    unfold n_bind at 1, Seller.update_price.
    destruct (n_for batches _ _) as [[[]|f|] w2] eqn:Hfor; try done.
    apply (n_for_update_done (Seller.PricesCall client_id)) in Hfor as ->.
    unfold n_ret. intros [= <- <-]. simpl.
    exists ids, sent, batches.
    destruct (divide_concat out 1000 batches) as [Hcat Hall]; [lia|done|].
    rewrite <- app_assoc. repeat split; try done.
    apply result_mapM_Forall2 in Hout.
    eapply Forall2_impl; [exact Hout|]. intros row e. apply seller_price_offer.
  - intros J rows campaign_id market_token w prices w'.
    unfold Market.upload_prices, n_bind at 1.
    destruct (n_fetch _ _ w) as [[ids|f|] w1] eqn:Hfetch; try done.
    apply n_fetch_done in Hfetch as (sent & Hfetch & ->).
    unfold n_bind at 1, n_store, Market.create_prices.
    rewrite market_prices_loop, lookup_total_singleton.
    destruct (result_mapM market_price _) as [out|e] eqn:Hout; simpl; [|done].
    unfold n_bind at 1, n_result.
    destruct (divide out 500) as [batches|e] eqn:Hdiv; [|done].
    unfold n_bind at 1, Market.update_price.
    destruct (n_for batches _ _) as [[[]|f|] w2] eqn:Hfor; try done.
    apply (n_for_update_done (Market.PricesCall campaign_id)) in Hfor as ->.
    unfold n_ret. intros [= <- <-]. simpl.
    exists ids, sent, batches.
    destruct (divide_concat out 500 batches) as [Hcat Hall]; [lia|done|].
    rewrite <- app_assoc. repeat split; try done.
    apply result_mapM_Forall2 in Hout.
    eapply Forall2_impl; [exact Hout|]. intros row e. apply market_price_offer.
Qed.

(** X15. An error status in answer to one of the update requests of
    [upload_stocks] ends the run with [HTTPError] at that request: the
    batches before it and the refused one have been sent and stay sent,
    the batches after it are never sent. *)
Theorem upload_stocks_aborts :
  (∀ J watch_remnants client_id seller_token
     (w : wire Seller.page J Seller.call)
     offer_ids sent stocks σ' batches good bad rest,
     Seller.get_offer_ids client_id seller_token (got_prefix (pages w))
     = (Returned offer_ids, sent) →
     Seller.create_stocks watch_remnants 1%positive
       {[ 1%positive := offer_ids ]} = (Ok stocks, σ') →
     divide stocks 100 = Ok batches →
     acks w = (Got <$> good) ++ Got bad :: rest →
     Forall (λ r, ¬ 400 ≤ status_code r < 600) good →
     400 ≤ status_code bad < 600 →
     (length good < length batches)%nat →
     Seller.upload_stocks watch_remnants client_id seller_token w
     = (Failed (Py HTTPError),
        {| pages := drop (length sent) (pages w);
           acks := rest;
           calls := (calls w ++ replicate (length sent) (Seller.ListCall client_id))
                    ++ (Seller.StocksCall client_id
                        <$> take (S (length good)) batches) |}))
  ∧ (∀ J utcnow watch_remnants campaign_id market_token warehouse_id
       (w : wire Market.page J Market.call)
       offer_ids sent stocks σ' batches good bad rest,
     Market.get_offer_ids campaign_id market_token (got_prefix (pages w))
     = (Returned offer_ids, sent) →
     Market.create_stocks utcnow watch_remnants 1%positive warehouse_id
       {[ 1%positive := offer_ids ]} = (Ok stocks, σ') →
     divide stocks 2000 = Ok batches →
     acks w = (Got <$> good) ++ Got bad :: rest →
     Forall (λ r, ¬ 400 ≤ status_code r < 600) good →
     400 ≤ status_code bad < 600 →
     (length good < length batches)%nat →
     Market.upload_stocks utcnow watch_remnants campaign_id market_token
       warehouse_id w
     = (Failed (Py HTTPError),
        {| pages := drop (length sent) (pages w);
           acks := rest;
           calls := (calls w ++ replicate (length sent) (Market.ListCall campaign_id))
                    ++ (Market.StocksCall campaign_id
                        <$> take (S (length good)) batches) |})).
Proof.
  split.
  - intros J rows client_id seller_token w ids sent stocks σ' batches good bad
      rest Hfetch Hcs Hdiv Hacks Hgood Hbad Hlen.
    unfold Seller.upload_stocks, n_bind at 1.
    rewrite (n_fetch_returned _ _ _ _ _ Hfetch).
    unfold n_bind at 1, n_store. rewrite Hcs. simpl fst.
    unfold n_bind at 1, n_result. rewrite Hdiv.
    unfold n_bind at 1, Seller.update_stocks.
    by rewrite (n_for_update_abort (Seller.StocksCall client_id) batches _
                  good bad rest).
  - intros J utcnow rows campaign_id market_token wh w ids sent stocks σ'
      batches good bad rest Hfetch Hcs Hdiv Hacks Hgood Hbad Hlen.
    unfold Market.upload_stocks, n_bind at 1.
    rewrite (n_fetch_returned _ _ _ _ _ Hfetch).
    unfold n_bind at 1, n_store. rewrite Hcs. simpl fst.
    unfold n_bind at 1, n_result. rewrite Hdiv.
    unfold n_bind at 1, Market.update_stocks.
    by rewrite (n_for_update_abort (Market.StocksCall campaign_id) batches _
                  good bad rest).
Qed.

(** ** What [main] sends *)

Lemma adds_ret {P J C A} (Q : C → Prop) (a : A) (w : wire P J C) :
  adds Q (n_ret a) w.
Proof. intros e w' [= <- <-]. exists []. by rewrite app_nil_r. Qed.

Lemma adds_bind {P J C A B} (Q : C → Prop) (m : N (wire P J C) A)
    (k : A → N (wire P J C) B) w :
  adds Q m w →
  (∀ a w1, m w = (Done a, w1) → adds Q (k a) w1) →
  adds Q (n_bind m k) w.
Proof.
  intros Hm Hk e w'. unfold n_bind.
  destruct (m w) as [[a|f|] w1] eqn:Hrun.
  - intros Hka. destruct (Hm _ _ Hrun) as (new1 & Hc1 & H1).
    destruct (Hk a w1 eq_refl _ _ Hka) as (new2 & -> & H2).
    exists (new1 ++ new2). rewrite Hc1, <- app_assoc.
    split; [done|]. by apply Forall_app.
  - intros [= <- <-]. by apply (Hm _ _ Hrun).
  - intros [= <- <-]. by apply (Hm _ _ Hrun).
Qed.

Lemma adds_result {P J C A} (Q : C → Prop) (r : result A) (w : wire P J C) :
  adds Q (n_result r) w.
Proof. intros e w' [= <- <-]. exists []. by rewrite app_nil_r. Qed.

Lemma adds_store {P J C A} (Q : C → Prop) (m : M A) σ (w : wire P J C) :
  adds Q (n_store m σ) w.
Proof.
  intros e w'. unfold n_store.
  destruct (m σ) as [[a|x] σ']; intros [= <- <-]; exists [];
    by rewrite app_nil_r.
Qed.

Lemma adds_download {P J C} (Q : C → Prop) d (w : wire P J C) :
  adds Q (n_download d) w.
Proof. intros e w' [= <- <-]. exists []. by rewrite app_nil_r. Qed.

Lemma adds_update {P J C} (Q : C → Prop) (c : C) (w : wire P J C) :
  Q c → adds Q (n_update (J:=J) c) w.
Proof.
  intros Hc e w'. unfold n_update.
  destruct (acks w) as [|[r|t] rest].
  - intros [= <- <-]. exists []. by rewrite app_nil_r.
  - destruct (raise_for_status r); intros [= <- <-]; exists [c]; by repeat constructor.
  - intros [= <- <-]. exists [c]. by repeat constructor.
Qed.

Lemma adds_fetch {P J C R} (Q : C → Prop)
    (fetch : list (response P) → outcome (list string) * list R) (c : C)
    (w : wire P J C) :
  Q c → adds Q (n_fetch fetch c) w.
Proof.
  intros Hc e w' Hrun. apply n_fetch_calls in Hrun as (k & -> & _).
  exists (replicate k c). split; [done|].
  apply Forall_forall. by intros x [-> _]%elem_of_replicate.
Qed.

Lemma adds_for {P J C A B} (Q : C → Prop) (xs : list A)
    (body : A → N (wire P J C) B) :
  (∀ x w, adds Q (body x) w) → ∀ w, adds Q (n_for xs body) w.
Proof.
  intros Hbody. induction xs as [|x xs IH]; intros w; simpl.
  - apply adds_ret.
  - apply adds_bind; [apply Hbody|]. intros _ w1 _. apply IH.
Qed.

Lemma adds_try {P J C A} (Q : C → Prop) (body : N (wire P J C) A) w :
  adds Q body w → adds Q (n_try body) w.
Proof.
  intros Hbody e w'. unfold n_try.
  destruct (body w) as [[a|f|] w1] eqn:Hrun; intros [= <- <-];
    by apply (Hbody _ _ Hrun).
Qed.

Lemma divide_nil {A} (n : Z) chunks :
  divide (@nil A) n = Ok chunks → chunks = [].
Proof.
  unfold divide, py_range. destruct (n =? 0); [done|]. simpl. by intros [= <-].
Qed.

Lemma seller_prices_after_stocks recs ids out σ' prices σ'' :
  NoDup ids →
  Seller.create_stocks recs 1%positive {[ 1%positive := ids ]} = (Ok out, σ') →
  Seller.create_prices recs 1%positive σ' = (Ok prices, σ'') →
  prices = [].
Proof.
  intros Hnd Hcs.
  rewrite (seller_create_stocks_reconcile _ _ _ ids) in Hcs
    by apply lookup_singleton_eq.
  destruct (reconcile _ _ _) as [r f] eqn:Hr. injection Hcs as -> <-.
  apply reconcile_ok in Hr as (_ & _ & _ & _ & _ & _ & _ & _ & Hleft).
  unfold Seller.create_prices. rewrite seller_prices_loop.
  rewrite lookup_total_insert_eq, (Hleft Hnd), filter_none.
  - simpl. by intros [= <- _].
  - intros w Hw Hin. apply list_elem_of_filter in Hin as [Hin _].
    apply Hin. by apply list_elem_of_fmap_2.
Qed.

(** X16. [main] of seller.py builds its prices on the list that
    [create_stocks] has used up.  When the catalogue it fetched names
    every offer once, no price update is ever sent, however the run
    ends: the calls it makes are catalogue requests and stock updates. *)
Theorem seller_main_sends_no_prices {J} seller_token client_id download
    (w : wire Seller.page J Seller.call) e w' :
  (∀ offer_ids sent,
     Seller.get_offer_ids client_id seller_token (got_prefix (pages w))
     = (Returned offer_ids, sent) → NoDup offer_ids) →
  Seller.main seller_token client_id download w = (e, w') →
  ∃ new, calls w' = calls w ++ new
    ∧ Forall (λ c, c = Seller.ListCall client_id
                   ∨ ∃ batch, c = Seller.StocksCall client_id batch) new.
Proof.
  intros Hnd. revert e w'.
  change (adds (λ c, c = Seller.ListCall client_id
                     ∨ ∃ batch, c = Seller.StocksCall client_id batch)
            (Seller.main seller_token client_id download) w).
  unfold Seller.main. apply adds_try.
  apply adds_bind; [apply adds_fetch; by left|].
  intros ids w1 Hfetch. apply n_fetch_done in Hfetch as (sent & Hfetch & _).
  specialize (Hnd _ _ Hfetch).
  apply adds_bind; [apply adds_download|]. intros rows w2 _.
  apply adds_bind; [apply adds_store|]. intros [stocks σ1] w3 Hstocks.
  unfold n_store in Hstocks.
  destruct (Seller.create_stocks rows 1%positive _) as [[out|x] σ0] eqn:Hcs;
    [|done].
  injection Hstocks as -> -> _. cbn [fst snd].
  apply adds_bind; [apply adds_result|]. intros batches w4 _.
  apply adds_bind.
  { apply adds_for. intros b w0. apply adds_update. right. by exists b. }
  intros _ w5 _.
  apply adds_bind; [apply adds_store|]. intros [prices σ2] w6 Hprices.
  unfold n_store in Hprices.
  destruct (Seller.create_prices rows 1%positive σ1) as [[ps|x] σ3] eqn:Hcp;
    [|done].
  injection Hprices as -> -> _. cbn [fst].
  rewrite (seller_prices_after_stocks _ _ _ _ _ _ Hnd Hcs Hcp).
  apply adds_bind; [apply adds_result|]. intros batches2 w7 Hdiv.
  unfold n_result in Hdiv.
  destruct (divide [] 900) as [bs|x] eqn:Hbs; [|done].
  injection Hdiv as -> _. rewrite (divide_nil _ _ Hbs). apply adds_ret.
Qed.

(** X17. [main] of market.py never sends a price update: it calls
    [upload_prices] without awaiting it.  Whatever the replies and
    however the run ends, the calls it makes are catalogue requests and
    stock updates for its two campaigns. *)
Theorem market_main_sends_no_prices {J} market_token campaign_fbs_id
    campaign_dbs_id warehouse_fbs_id warehouse_dbs_id utcnow_fbs utcnow_dbs
    download (w : wire Market.page J Market.call) e w' :
  Market.main market_token campaign_fbs_id campaign_dbs_id warehouse_fbs_id
    warehouse_dbs_id utcnow_fbs utcnow_dbs download w = (e, w') →
  ∃ new, calls w' = calls w ++ new
    ∧ Forall (λ c, ∃ campaign_id,
                (campaign_id = campaign_fbs_id ∨ campaign_id = campaign_dbs_id)
                ∧ (c = Market.ListCall campaign_id
                   ∨ ∃ batch, c = Market.StocksCall campaign_id batch)) new.
Proof.
  revert e w'.
  change (adds (λ c, ∃ campaign_id,
                  (campaign_id = campaign_fbs_id ∨ campaign_id = campaign_dbs_id)
                  ∧ (c = Market.ListCall campaign_id
                     ∨ ∃ batch, c = Market.StocksCall campaign_id batch))
            (Market.main market_token campaign_fbs_id campaign_dbs_id
               warehouse_fbs_id warehouse_dbs_id utcnow_fbs utcnow_dbs download) w).
  unfold Market.main.
  apply adds_bind; [apply adds_download|]. intros rows w0 _.
  apply adds_try.
  apply adds_bind; [apply adds_fetch; exists campaign_fbs_id; by auto|].
  intros ids w1 _.
  apply adds_bind; [apply adds_store|]. intros made w2 _. cbv zeta.
  apply adds_bind; [apply adds_result|]. intros batches w3 _.
  apply adds_bind.
  { apply adds_for. intros b wb. apply adds_update.
    exists campaign_fbs_id. split; [by left|]. right. by exists b. }
  intros _ w4 _.
  apply adds_bind; [apply adds_fetch; exists campaign_dbs_id; by auto|].
  intros ids2 w5 _.
  apply adds_bind; [apply adds_store|]. intros made2 w6 _. cbv zeta.
  apply adds_bind; [apply adds_result|]. intros batches2 w7 _.
  apply adds_bind.
  { apply adds_for. intros b wb. apply adds_update.
    exists campaign_dbs_id. split; [by right|]. right. by exists b. }
  intros _ w8 _. apply adds_ret.
Qed.

(** X18. A failed download of the sheet: [main] of seller.py has by then
    fetched the catalogue, catches the exception, prints its notice and
    sends nothing more; [main] of market.py downloads before its [try],
    so the exception leaves [main] before any request is made. *)
Theorem main_download_failed :
  (∀ J seller_token client_id f (w : wire Seller.page J Seller.call)
     offer_ids sent,
     Seller.get_offer_ids client_id seller_token (got_prefix (pages w))
     = (Returned offer_ids, sent) →
     Seller.main seller_token client_id (DownloadFailed f) w
     = (Done (Some (report f)),
        {| pages := drop (length sent) (pages w);
           acks := acks w;
           calls := calls w ++ replicate (length sent) (Seller.ListCall client_id) |}))
  ∧ (∀ J market_token campaign_fbs_id campaign_dbs_id warehouse_fbs_id
       warehouse_dbs_id utcnow_fbs utcnow_dbs f
       (w : wire Market.page J Market.call),
     Market.main market_token campaign_fbs_id campaign_dbs_id warehouse_fbs_id
       warehouse_dbs_id utcnow_fbs utcnow_dbs (DownloadFailed f) w
     = (Failed f, w)).
Proof.
  split.
  - intros J seller_token client_id f w ids sent Hfetch.
    unfold Seller.main, n_try, n_bind at 1.
    by rewrite (n_fetch_returned _ _ _ _ _ Hfetch).
  - done.
Qed.

(** ** Numbers in the quantity column *)






(** X20. [main] of market.py has one [try] around both campaigns: when
    the catalogue fetch of the first one raises, [main] prints the error
    and ends, and nothing is asked of or sent to the second campaign. *)
Theorem market_main_first_fetch_fails {J} market_token campaign_fbs_id
    campaign_dbs_id warehouse_fbs_id warehouse_dbs_id utcnow_fbs utcnow_dbs
    watch_remnants (w : wire Market.page J Market.call) e sent :
  Market.get_offer_ids campaign_fbs_id market_token (got_prefix (pages w))
  = (Raised e, sent) →
  Market.main market_token campaign_fbs_id campaign_dbs_id warehouse_fbs_id
    warehouse_dbs_id utcnow_fbs utcnow_dbs (Rows watch_remnants) w
  = (Done (Some (ErrorNotice e)),
     {| pages := drop (length sent) (pages w);
        acks := acks w;
        calls := calls w ++ replicate (length sent)
                              (Market.ListCall campaign_fbs_id) |}).
Proof.
  intros Hfetch. unfold Market.main, n_bind at 1, n_download.
  unfold n_try, n_bind at 1, n_fetch. by rewrite Hfetch.
Qed.

(** ** The further facts at the sample data *)

Lemma watch_price c q p : dict_get "Цена" (watch c q p) = p.
Proof.
  unfold dict_get, watch.
  rewrite lookup_insert_ne by done. rewrite lookup_insert_ne by done.
  by rewrite lookup_insert_eq.
Qed.

Lemma sample_rows_listed :
  filter (λ w, code w ∈ sample_store !!! 1%positive) sample_rows = sample_rows.
Proof. vm_compute. exact eq_refl. Qed.

Lemma unpriced_rows_listed :
  filter (λ w, code w ∈ sample_store !!! 1%positive) unpriced_rows
  = unpriced_rows.
Proof. vm_compute. exact eq_refl. Qed.

Lemma blank_price_rows_listed :
  filter (λ w, code w ∈ sample_store !!! 1%positive) blank_price_rows
  = blank_price_rows.
Proof. vm_compute. exact eq_refl. Qed.

Lemma sample_rows_text :
  Forall (λ w, ∃ s, dict_get "Цена" w = PStr s)
    (filter (λ w, code w ∈ sample_store !!! 1%positive) sample_rows).
Proof.
  rewrite sample_rows_listed. unfold sample_rows.
  repeat (apply Forall_cons; split; [eexists; apply watch_price|]).
  apply Forall_nil_2.
Qed.

Lemma price_conversion_idempotent_witness :
  price_conversion (PStr "5'990.00 руб.") = Ok "5990"
  ∧ price_conversion (PStr "5990") = Ok "5990".
Proof.
  split; [reflexivity|].
  exact (price_conversion_idempotent "5'990.00 руб." "5990" eq_refl).
Defined.

Lemma seller_create_prices_raises_witness :
  Forall (λ w, ∃ s, dict_get "Цена" w = PStr s)
    (filter (λ w, code w ∈ sample_store !!! 1%positive) sample_rows)
  ∧ (∃ out, Seller.create_prices sample_rows 1%positive sample_store
            = (Ok out, sample_store))
  ∧ Exists (λ w, ∀ s, dict_get "Цена" w ≠ PStr s)
      (filter (λ w, code w ∈ sample_store !!! 1%positive) unpriced_rows)
  ∧ Seller.create_prices unpriced_rows 1%positive sample_store
    = (Raise AttributeError, sample_store).
Proof.
  assert (Exists (λ w, ∀ s, dict_get "Цена" w ≠ PStr s)
            (filter (λ w, code w ∈ sample_store !!! 1%positive) unpriced_rows))
    as Hnone.
  { rewrite unpriced_rows_listed. unfold unpriced_rows.
    apply Exists_cons_hd. intros s. by rewrite watch_price. }
  split; [exact sample_rows_text|]. split.
  - exact (proj1 (seller_create_prices_raises sample_rows 1%positive sample_store)
             sample_rows_text).
  - split; [exact Hnone|].
    exact (proj2 (seller_create_prices_raises unpriced_rows 1%positive
                    sample_store) Hnone).
Defined.

Lemma market_create_prices_amounts_witness :
  Forall (λ w, ∃ s, dict_get "Цена" w = PStr s)
    (filter (λ w, code w ∈ sample_store !!! 1%positive) blank_price_rows)
  ∧ Exists (λ w, ∀ s, dict_get "Цена" w = PStr s → normalize_price_spec s = "")
      (filter (λ w, code w ∈ sample_store !!! 1%positive) blank_price_rows)
  ∧ Market.create_prices blank_price_rows 1%positive sample_store
    = (Raise ValueError, sample_store)
  ∧ Forall (λ w, ∀ s, dict_get "Цена" w = PStr s →
                  normalize_price_spec s ≠ ""
                  ∧ Z.of_nat (String.length (normalize_price_spec s)) ≤ 4300)
      (filter (λ w, code w ∈ sample_store !!! 1%positive) sample_rows)
  ∧ ∃ out_market out_seller,
      Market.create_prices sample_rows 1%positive sample_store
      = (Ok out_market, sample_store)
      ∧ Seller.create_prices sample_rows 1%positive sample_store
        = (Ok out_seller, sample_store)
      ∧ Forall2 (λ m s, Market.id m = Seller.price_offer_id s
                  ∧ py_int (PStr (Seller.price s))
                    = Ok (Market.value (Market.price m))
                  ∧ 0 ≤ Market.value (Market.price m))
          out_market out_seller.
Proof.
  assert (Forall (λ w, ∃ s, dict_get "Цена" w = PStr s)
            (filter (λ w, code w ∈ sample_store !!! 1%positive) blank_price_rows))
    as Hblank_text.
  { rewrite blank_price_rows_listed. unfold blank_price_rows.
    apply Forall_cons. split; [eexists; apply watch_price|apply Forall_nil_2]. }
  assert (Exists (λ w, ∀ s, dict_get "Цена" w = PStr s →
                       normalize_price_spec s = "")
            (filter (λ w, code w ∈ sample_store !!! 1%positive) blank_price_rows))
    as Hblank.
  { rewrite blank_price_rows_listed. unfold blank_price_rows.
    apply Exists_cons_hd. intros s. rewrite watch_price.
    intros [= <-]. reflexivity. }
  assert (Forall (λ w, ∀ s, dict_get "Цена" w = PStr s →
                       normalize_price_spec s ≠ ""
                       ∧ Z.of_nat (String.length (normalize_price_spec s)) ≤ 4300)
            (filter (λ w, code w ∈ sample_store !!! 1%positive) sample_rows))
    as Hdigits.
  { rewrite sample_rows_listed. unfold sample_rows.
    repeat (apply Forall_cons; split;
            [intros s; rewrite watch_price; intros [= <-];
             split; [discriminate|vm_compute; discriminate]|]).
    apply Forall_nil_2. }
  split; [exact Hblank_text|]. split; [exact Hblank|]. split.
  - exact (proj1 (market_create_prices_amounts blank_price_rows 1%positive
                    sample_store Hblank_text) Hblank).
  - split; [exact Hdigits|].
    exact (proj2 (market_create_prices_amounts sample_rows 1%positive
                    sample_store sample_rows_text) Hdigits).
Defined.

Lemma create_stocks_foreign_rows_witness :
  sample_store !! 1%positive = Some sample_ids
  ∧ Forall (λ w, code w ∉ sample_ids) foreign_rows
  ∧ Seller.create_stocks foreign_rows 1%positive sample_store
    = (Ok ((λ c, seller_stock c 0) <$> sample_ids), sample_store)
  ∧ Market.create_stocks sample_date foreign_rows 1%positive "w1" sample_store
    = (Ok ((λ c, market_stock sample_date "w1" c 0) <$> sample_ids),
       sample_store).
Proof.
  assert (Forall (λ w, code w ∉ sample_ids) foreign_rows) as Hforeign.
  { repeat constructor; apply (bool_decide_unpack _); vm_compute; exact I. }
  split; [reflexivity|]. split; [exact Hforeign|].
  destruct (create_stocks_foreign_rows foreign_rows 1%positive sample_store
              sample_ids eq_refl Hforeign) as [Hseller Hmarket].
  split; [exact Hseller|]. exact (Hmarket sample_date "w1").
Defined.


Lemma divide_batches_witness :
  0 < 2
  ∧ ∃ chunks, divide [1; 2; 3; 4; 5] 2 = Ok chunks
      ∧ chunks !! 2%nat = Some (take (Z.to_nat 2) (drop (2 * Z.to_nat 2) [1; 2; 3; 4; 5]))
      ∧ Z.of_nat (length chunks) = (Z.of_nat (length [1; 2; 3; 4; 5]) + 2 - 1) / 2.
Proof.
  assert (0 < 2) as Hpos by lia.
  split; [exact Hpos|].
  destruct (divide_batches [1; 2; 3; 4; 5] 2 Hpos) as (chunks & Hdiv & Hkth & Hlen).
  exists chunks. split; [exact Hdiv|]. split; [|exact Hlen].
  apply (Hkth 2%nat). vm_compute. reflexivity.
Defined.

Lemma divide_non_positive_witness :
  divide [1; 2; 3] 0 = Raise ValueError
  ∧ -100 < 0
  ∧ divide [1; 2; 3] (-100) = Ok [].
Proof.
  assert (-100 < 0) as Hneg by lia.
  split; [exact (proj1 (divide_non_positive [1; 2; 3] 0) eq_refl)|].
  split; [exact Hneg|].
  exact (proj2 (divide_non_positive [1; 2; 3] (-100)) Hneg).
Defined.

Lemma divide_short_witness :
  0 < 100
  ∧ Z.of_nat (length sample_seller_stocks) ≤ 100
  ∧ divide sample_seller_stocks 100
    = Ok (if decide (sample_seller_stocks = []) then [] else [sample_seller_stocks]).
Proof.
  assert (0 < 100) as Hpos by lia.
  assert (Z.of_nat (length sample_seller_stocks) ≤ 100) as Hshort
    by (vm_compute; discriminate).
  split; [exact Hpos|]. split; [exact Hshort|].
  exact (divide_short sample_seller_stocks 100 Hpos Hshort).
Defined.

Lemma seller_get_offer_ids_returns_witness :
  Seller.get_offer_ids "client" "token"
    [sample_seller_page; sample_seller_last_page; server_error]
  = (Returned ["123"; "456"], [seller_request ""; seller_request "a1"])
  ∧ ∃ pgs, length pgs = 2%nat
      ∧ pgs ≠ []
      ∧ json_result <$> take 2 [sample_seller_page; sample_seller_last_page;
                                server_error]
        = Some <$> pgs
      ∧ ["123"; "456"] = Seller.product_offer_id <$> concat (Seller.items <$> pgs)
      ∧ (∃ p, last pgs = Some p ∧ Seller.total p = 2)
      ∧ [seller_request ""; seller_request "a1"]
        = seller_request <$> take (length pgs) ("" :: (Seller.last_id <$> pgs)).
Proof.
  split; [reflexivity|].
  exact (seller_get_offer_ids_returns "client" "token"
           [sample_seller_page; sample_seller_last_page; server_error]
           ["123"; "456"] [seller_request ""; seller_request "a1"] eq_refl).
Defined.

Lemma market_get_offer_ids_returns_witness :
  Market.get_offer_ids "campaign" "token"
    [sample_market_page; sample_market_last_page; server_error]
  = (Returned ["123"; "456"], [market_request ""; market_request "p2"])
  ∧ ∃ pgs, length pgs = 2%nat
      ∧ pgs ≠ []
      ∧ json_result <$> take 2 [sample_market_page; sample_market_last_page;
                                server_error]
        = Some <$> pgs
      ∧ ["123"; "456"]
        = (λ product, Market.shopSku (Market.offer product))
          <$> concat (Market.offerMappingEntries <$> pgs)
      ∧ (∃ p, last pgs = Some p
           ∧ (Market.nextPageToken (Market.paging p) = None
              ∨ Market.nextPageToken (Market.paging p) = Some ""))
      ∧ [market_request ""; market_request "p2"]
        = market_request
          <$> take (length pgs)
                ("" :: ((λ p, default "" (Market.nextPageToken (Market.paging p)))
                        <$> pgs)).
Proof.
  split; [reflexivity|].
  exact (market_get_offer_ids_returns "campaign" "token"
           [sample_market_page; sample_market_last_page; server_error]
           ["123"; "456"] [market_request ""; market_request "p2"] eq_refl).
Defined.

Lemma get_offer_ids_no_result_witness :
  ¬ 400 ≤ 200 < 600
  ∧ (∃ request,
       Seller.get_offer_ids "client" "token" ([sample_seller_page] ++ [empty_body])
       = (Raised AttributeError, [seller_request ""] ++ [request]))
  ∧ (∃ request,
       Market.get_offer_ids "campaign" "token" ([sample_market_page] ++ [empty_body])
       = (Raised AttributeError, [market_request ""] ++ [request])).
Proof.
  assert (¬ 400 ≤ 200 < 600) as Hok by lia.
  split; [exact Hok|].
  destruct get_offer_ids_no_result as [Hseller Hmarket].
  split.
  - exact (Hseller "client" "token" [sample_seller_page] empty_body []
             [seller_request ""] Hok eq_refl eq_refl).
  - exact (Hmarket "campaign" "token" [sample_market_page] empty_body []
             [market_request ""] Hok eq_refl eq_refl).
Defined.

Lemma upload_stocks_returns_witness :
  (∃ offer_ids sent σ' batches,
     Seller.get_offer_ids "client" "token" (got_prefix (pages sample_seller_wire))
     = (Returned offer_ids, sent)
     ∧ Seller.create_stocks sample_rows 1%positive {[ 1%positive := offer_ids ]}
       = (Ok sample_run_stocks, σ')
     ∧ divide sample_run_stocks 100 = Ok batches
     ∧ calls (snd (Seller.upload_stocks sample_rows "client" "token"
                     sample_seller_wire))
       = calls sample_seller_wire
         ++ replicate (length sent) (Seller.ListCall "client")
         ++ (Seller.StocksCall "client" <$> batches)
     ∧ acks (snd (Seller.upload_stocks sample_rows "client" "token"
                    sample_seller_wire))
       = drop (length batches) (acks sample_seller_wire)
     ∧ concat batches = sample_run_stocks
     ∧ Forall (λ b, 0 < Z.of_nat (length b) ≤ 100) batches
     ∧ length sample_run_stocks = length offer_ids
     ∧ Z.of_nat (length batches) = (Z.of_nat (length offer_ids) + 99) / 100
     ∧ [seller_stock "123" 100]
       = filter (λ e, Seller.stock e ≠ 0) sample_run_stocks)
  ∧ (∃ offer_ids sent σ' batches,
     Market.get_offer_ids "campaign" "token" (got_prefix (pages sample_market_wire))
     = (Returned offer_ids, sent)
     ∧ Market.create_stocks sample_date sample_rows 1%positive "w1"
         {[ 1%positive := offer_ids ]}
       = (Ok sample_run_skus, σ')
     ∧ divide sample_run_skus 2000 = Ok batches
     ∧ calls (snd (Market.upload_stocks sample_date sample_rows "campaign"
                     "token" "w1" sample_market_wire))
       = calls sample_market_wire
         ++ replicate (length sent) (Market.ListCall "campaign")
         ++ (Market.StocksCall "campaign" <$> batches)
     ∧ acks (snd (Market.upload_stocks sample_date sample_rows "campaign"
                    "token" "w1" sample_market_wire))
       = drop (length batches) (acks sample_market_wire)
     ∧ concat batches = sample_run_skus
     ∧ Forall (λ b, 0 < Z.of_nat (length b) ≤ 2000) batches
     ∧ length sample_run_skus = length offer_ids
     ∧ Z.of_nat (length batches) = (Z.of_nat (length offer_ids) + 1999) / 2000
     ∧ [market_stock sample_date "w1" "123" 100]
       = filter (λ e, market_count e ≠ Some 0) sample_run_skus).
Proof.
  destruct upload_stocks_returns as [Hseller Hmarket].
  split.
  - apply (Hseller unit sample_rows "client" "token" sample_seller_wire).
    vm_compute. reflexivity.
  - apply (Hmarket unit sample_date sample_rows "campaign" "token" "w1"
             sample_market_wire).
    vm_compute. reflexivity.
Defined.

Lemma upload_prices_returns_witness :
  (∃ offer_ids sent batches,
     Seller.get_offer_ids "client" "token" (got_prefix (pages sample_seller_wire))
     = (Returned offer_ids, sent)
     ∧ Forall2 (λ row e, Seller.price_offer_id e = code row)
         (filter (λ row, code row ∈ offer_ids) sample_rows)
         (take 2 sample_seller_prices)
     ∧ divide (take 2 sample_seller_prices) 1000 = Ok batches
     ∧ calls (snd (Seller.upload_prices sample_rows "client" "token"
                     sample_seller_wire))
       = calls sample_seller_wire
         ++ replicate (length sent) (Seller.ListCall "client")
         ++ (Seller.PricesCall "client" <$> batches)
     ∧ acks (snd (Seller.upload_prices sample_rows "client" "token"
                    sample_seller_wire))
       = drop (length batches) (acks sample_seller_wire)
     ∧ concat batches = take 2 sample_seller_prices
     ∧ Forall (λ b, 0 < Z.of_nat (length b) ≤ 1000) batches)
  ∧ (∃ offer_ids sent batches,
     Market.get_offer_ids "campaign" "token" (got_prefix (pages sample_market_wire))
     = (Returned offer_ids, sent)
     ∧ Forall2 (λ row e, Market.id e = code row)
         (filter (λ row, code row ∈ offer_ids) sample_rows)
         (take 2 sample_market_prices)
     ∧ divide (take 2 sample_market_prices) 500 = Ok batches
     ∧ calls (snd (Market.upload_prices sample_rows "campaign" "token"
                     sample_market_wire))
       = calls sample_market_wire
         ++ replicate (length sent) (Market.ListCall "campaign")
         ++ (Market.PricesCall "campaign" <$> batches)
     ∧ acks (snd (Market.upload_prices sample_rows "campaign" "token"
                    sample_market_wire))
       = drop (length batches) (acks sample_market_wire)
     ∧ concat batches = take 2 sample_market_prices
     ∧ Forall (λ b, 0 < Z.of_nat (length b) ≤ 500) batches).
Proof.
  destruct upload_prices_returns as [Hseller Hmarket].
  split.
  - apply (Hseller unit sample_rows "client" "token" sample_seller_wire).
    vm_compute. reflexivity.
  - apply (Hmarket unit sample_rows "campaign" "token" sample_market_wire).
    vm_compute. reflexivity.
Defined.

Lemma upload_stocks_aborts_witness :
  400 ≤ 500 < 600
  ∧ Seller.upload_stocks sample_rows "client" "token"
      {| pages := pages sample_seller_wire; acks := [error_ack]; calls := [] |}
    = (Failed (Py HTTPError),
       {| pages := [];
          acks := [];
          calls := [Seller.ListCall "client"; Seller.ListCall "client";
                    Seller.StocksCall "client" sample_run_stocks] |})
  ∧ Market.upload_stocks sample_date sample_rows "campaign" "token" "w1"
      {| pages := pages sample_market_wire; acks := [error_ack]; calls := [] |}
    = (Failed (Py HTTPError),
       {| pages := [Got sample_market_page; Got sample_market_last_page];
          acks := [];
          calls := [Market.ListCall "campaign"; Market.ListCall "campaign";
                    Market.StocksCall "campaign" sample_run_skus] |}).
Proof.
  assert (400 ≤ 500 < 600) as Hbad by lia.
  split; [exact Hbad|].
  destruct upload_stocks_aborts as [Hseller Hmarket].
  split.
  - apply (Hseller unit sample_rows "client" "token"
             {| pages := pages sample_seller_wire; acks := [error_ack];
                calls := [] |}
             ["123"; "456"] [seller_request ""; seller_request "a1"]
             sample_run_stocks {[ 1%positive := [] ]} [sample_run_stocks]
             [] {| status_code := 500; json_result := None |} []).
    + reflexivity.
    + vm_compute. reflexivity.
    + reflexivity.
    + reflexivity.
    + constructor.
    + exact Hbad.
    + simpl. lia.
  - apply (Hmarket unit sample_date sample_rows "campaign" "token" "w1"
             {| pages := pages sample_market_wire; acks := [error_ack];
                calls := [] |}
             ["123"; "456"] [market_request ""; market_request "p2"]
             sample_run_skus {[ 1%positive := [] ]} [sample_run_skus]
             [] {| status_code := 500; json_result := None |} []).
    + reflexivity.
    + vm_compute. reflexivity.
    + reflexivity.
    + reflexivity.
    + constructor.
    + exact Hbad.
    + simpl. lia.
Defined.

Lemma seller_main_sends_no_prices_witness :
  (∀ offer_ids sent,
     Seller.get_offer_ids "client" "token" (got_prefix (pages sample_seller_wire))
     = (Returned offer_ids, sent) → NoDup offer_ids)
  ∧ Seller.main "token" "client" (Rows sample_rows) sample_seller_wire
    = (Done None,
       {| pages := [];
          acks := [ok_ack];
          calls := [Seller.ListCall "client"; Seller.ListCall "client";
                    Seller.StocksCall "client" sample_run_stocks] |})
  ∧ ∃ new,
      [Seller.ListCall "client"; Seller.ListCall "client";
       Seller.StocksCall "client" sample_run_stocks]
      = calls sample_seller_wire ++ new
      ∧ Forall (λ c, c = Seller.ListCall "client"
                     ∨ ∃ batch, c = Seller.StocksCall "client" batch) new.
Proof.
  assert (∀ offer_ids sent,
            Seller.get_offer_ids "client" "token"
              (got_prefix (pages sample_seller_wire))
            = (Returned offer_ids, sent) → NoDup offer_ids) as Hnd.
  { intros offer_ids sent Hfetch. vm_compute in Hfetch.
    injection Hfetch as <- _. apply (bool_decide_unpack _). vm_compute. exact I. }
  split; [exact Hnd|]. split; [vm_compute; reflexivity|].
  apply (seller_main_sends_no_prices "token" "client" (Rows sample_rows)
           sample_seller_wire (Done None)
           {| pages := [];
              acks := [ok_ack];
              calls := [Seller.ListCall "client"; Seller.ListCall "client";
                        Seller.StocksCall "client" sample_run_stocks] |} Hnd).
  vm_compute. reflexivity.
Defined.

Lemma market_main_sends_no_prices_witness :
  ∃ new,
    calls (snd (Market.main "token" "fbs" "dbs" "w1" "w2" sample_date sample_date
                  (Rows sample_rows) sample_market_wire))
    = calls sample_market_wire ++ new
    ∧ Forall (λ c, ∃ campaign_id,
                (campaign_id = "fbs" ∨ campaign_id = "dbs")
                ∧ (c = Market.ListCall campaign_id
                   ∨ ∃ batch, c = Market.StocksCall campaign_id batch)) new.
Proof.
  apply (market_main_sends_no_prices "token" "fbs" "dbs" "w1" "w2" sample_date
           sample_date (Rows sample_rows) sample_market_wire (Done None)).
  vm_compute. reflexivity.
Defined.

Lemma main_download_failed_witness :
  Seller.get_offer_ids "client" "token" (got_prefix (pages sample_seller_wire))
  = (Returned ["123"; "456"], [seller_request ""; seller_request "a1"])
  ∧ Seller.main "token" "client" (DownloadFailed (Transport ReadTimeout))
      sample_seller_wire
    = (Done (Some TimeoutNotice),
       {| pages := [];
          acks := [ok_ack; ok_ack];
          calls := [Seller.ListCall "client"; Seller.ListCall "client"] |}).
Proof.
  split; [reflexivity|].
  exact (proj1 main_download_failed unit "token" "client"
           (Transport ReadTimeout) sample_seller_wire ["123"; "456"]
           [seller_request ""; seller_request "a1"] eq_refl).
Defined.


Lemma market_main_first_fetch_fails_witness :
  Market.get_offer_ids "campaign" "token" (got_prefix (pages failing_market_wire))
  = (Raised HTTPError, [market_request ""; market_request "p2"])
  ∧ Market.main "token" "campaign" "dbs" "w1" "w2" sample_date sample_date
      (Rows sample_rows) failing_market_wire
    = (Done (Some (ErrorNotice HTTPError)),
       {| pages := [Got sample_market_page; Got sample_market_last_page];
          acks := [ok_ack; ok_ack];
          calls := [Market.ListCall "campaign"; Market.ListCall "campaign"] |}).
Proof.
  split; [reflexivity|].
  exact (market_main_first_fetch_fails (J := unit) "token" "campaign" "dbs" "w1"
           "w2" sample_date sample_date sample_rows failing_market_wire
           HTTPError [market_request ""; market_request "p2"] eq_refl).
Defined.
